(** * SCXRD application tracker: quota ledger, priority, status machines, locks

    A shallow embedding of the core of the Django project (models, signal
    handlers and the two views that move quota time and processing locks),
    followed by the properties established about it.

    Conventions used throughout:
    - Python [None] is [None] of an [option]; a Python [str] is a Rocq
      [string] holding its UTF-8 bytes, and [len] counts code points.
    - [Decimal] values are rationals ([Q]) with exact arithmetic; the
      28-digit context of [decimal] and the two-place quantisation of the
      database columns are not part of the model.
    - An aware [datetime] is a number of microseconds on the time line, a
      [timedelta] a signed number of microseconds.
    - A database table is a [gmap] from primary key to row. *)

From Stdlib Require Import ZArith QArith Qround String Ascii List Bool Lia Lqa.
From stdpp Require Import gmap strings list sorting.

Close Scope Q_scope.
Local Open Scope string_scope.
Local Open Scope Z_scope.

(** ** Python values *)

Module Py.

(** [decimal.Decimal], exact. *)
Definition Decimal : Type := Q.

(** [bool(d)] for a [Decimal]: zero is falsy. *)
Definition decimal_truthy (d : Decimal) : bool := negb (Qeq_bool d 0).

(** [a < b] on numbers. *)
Definition decimal_ltb (a b : Decimal) : bool := negb (Qle_bool b a).

(** [min(a, b)]: the second argument only when it is strictly smaller. *)
Definition min (a b : Decimal) : Decimal := if decimal_ltb b a then b else a.

(** [bool(s)] for a [str]: the empty string is falsy. *)
Definition str_truthy (s : string) : bool :=
  match s with
  | EmptyString => false
  | String _ _ => true
  end.

(** A byte of the form 10xxxxxx continues a code point begun earlier. *)
Definition is_continuation (a : ascii) : bool :=
  let n := Z.of_N (N_of_ascii a) in (128 <=? n) && (n <? 192).

(** [len(s)]: the number of code points of [s]. *)
Fixpoint len (s : string) : nat :=
  match s with
  | EmptyString => O
  | String a rest => if is_continuation a then len rest else S (len rest)
  end.

(** [''.join(parts)]. *)
Definition join (parts : list string) : string :=
  fold_right String.append "" parts.

(** Microseconds in a second, an hour and a day. *)
Definition us_per_second : Z := 1000000.
Definition us_per_hour : Z := 3600 * us_per_second.
Definition us_per_day : Z := 86400 * us_per_second.

(** [round(x, 2)] followed by [Decimal(...)]: nearest multiple of 0.01,
    ties to the even neighbour. *)
Definition round_half_even (x : Q) : Z :=
  let f := Qfloor x in
  let r := (x - inject_Z f)%Q in
  match (r ?= 1 # 2)%Q with
  | Lt => f
  | Gt => f + 1
  | Eq => if Z.even f then f else f + 1
  end.

Definition round2 (x : Q) : Decimal :=
  Qmake (round_half_even (x * 100)%Q) 100.

End Py.

(** ** Probe processing status ([probe/models.py], [Probe.ProcStatus]) *)

Module ProcStatus.

Definition NULL : string := "".
Definition TRASH : string := "x".
Definition SC_NR : string := "<".
Definition SC_R : string := ".".
Definition RE_R : string := "!".
Definition FA_R : string := "@".
Definition SC_RS : string := ">".
Definition PW_NR : string := "(".
Definition PW_R : string := ";".
Definition PW_RS : string := ")".
Definition EI_C : string := "+".
Definition EI_O : string := "#".
Definition C_REJ : string := "-".
Definition NC : string := "~".
Definition LP : string := "l".

(** The value pattern [case cls.X.value:] of a [match status:] statement:
    it matches when [status == X]; [None] matches no string. *)
Definition matches (status : option string) (v : string) : bool :=
  match status with
  | Some s => String.eqb s v
  | None => false
  end.

Definition get_reduced_value (status : option string) : option string :=
  if matches status SC_NR then Some SC_R
  else if matches status PW_NR then Some PW_R
  else if matches status RE_R then Some SC_R
  else status.

Definition get_posted_value (status : option string) : option string :=
  if matches status SC_R then Some SC_RS
  else if matches status PW_R then Some PW_RS
  else status.

Definition need_to_post (status : option string) : bool :=
  if matches status SC_R then true
  else if matches status PW_R then true
  else false.

(** [can_be_published] and the membership test of
    [Probe.publication_attachable]. *)
Definition can_be_published : list string := [SC_RS; PW_RS; LP].

Definition publication_attachable (status : option string) : bool :=
  existsb (matches status) can_be_published.

End ProcStatus.

(** ** Quota groups ([quotagroup/models.py]) *)

Module Quota.
Import Py.

Record QuotaGroup : Type := mkQuotaGroup {
  name : string;
  main : bool;
  update_time_on_period : bool;
  is_active : bool;
  period_time : option Decimal;   (* NULL: unlimited, -1: no quota *)
  max_time : option Decimal;
  current_time : Decimal;
  quota_reset_time : Decimal;
  last_reset : Z;
  next_reset : option Z
}.

(** The table of quota groups, by primary key. *)
Abbreviation table := (gmap Z QuotaGroup).

(** [self.current_time = t]. *)
Definition set_current_time (t : Decimal) (g : QuotaGroup) : QuotaGroup :=
  {| name := name g; main := main g;
     update_time_on_period := update_time_on_period g;
     is_active := is_active g; period_time := period_time g;
     max_time := max_time g; current_time := t;
     quota_reset_time := quota_reset_time g;
     last_reset := last_reset g; next_reset := next_reset g |}.

(** The three assignments that end [reset_quota]. *)
Definition set_reset (t : Decimal) (now : Z) (g : QuotaGroup) : QuotaGroup :=
  {| name := name g; main := main g;
     update_time_on_period := update_time_on_period g;
     is_active := is_active g; period_time := period_time g;
     max_time := max_time g; current_time := t;
     quota_reset_time := t;
     last_reset := now; next_reset := next_reset g |}.

(** [Model.save()] of a group held under primary key [pk]: every column of
    the row is written from the instance. *)
Definition save (pk : Z) (self : QuotaGroup) (groups : table) : table :=
  <[pk := self]> groups.

(** [period_time in [None, Decimal('-1')]], equally
    [period_time is None or period_time == Decimal('-1')]. *)
Definition unmetered (p : option Decimal) : bool :=
  match p with
  | None => true
  | Some d => Qeq_bool d (-1 # 1)%Q
  end.

(** [QuotaGroup.reset_quota], on the instance [self] stored under [pk];
    [now] is the reading of [timezone.now()]. Returns the instance after
    the call and the table. *)
Definition reset_quota (now : Z) (pk : Z) (self : QuotaGroup) (groups : table)
  : QuotaGroup * table :=
  match period_time self with
  | None => (self, groups)
  | Some p =>
      if Qeq_bool p (-1 # 1)%Q then (self, groups)
      else
        let new_time := (current_time self + p)%Q in
        let new_time :=
          match max_time self with
          | Some m => if decimal_ltb m new_time then m else new_time
          | None => new_time
          end in
        let self' := set_reset new_time now self in
        (self', save pk self' groups)
  end.

(** [QuotaGroup.add_time]: returns the method's result, the instance after
    the call and the table. *)
Definition add_time (time : Decimal) (pk : Z) (self : QuotaGroup) (groups : table)
  : option Decimal * QuotaGroup * table :=
  if decimal_truthy time then
    let self' := set_current_time (current_time self + time)%Q self in
    (Some time, self', save pk self' groups)
  else (None, self, groups).

(** [QuotaGroup.subtract_time]: [return self.add_time(-time)]. *)
Definition subtract_time (time : Decimal) (pk : Z) (self : QuotaGroup) (groups : table)
  : option Decimal * QuotaGroup * table :=
  add_time (- time)%Q pk self groups.

End Quota.

(** ** Laboratories ([labs/models.py]) *)

Module Labs.
Import Py.

Record Laboratory : Type := mkLaboratory {
  lab_code : string;
  name : string;
  short_name : option string;
  quota_group : option Z          (* foreign key, SET_NULL *)
}.

Abbreviation table := (gmap Z Laboratory).

(** The related object [self.quota_group], read through the foreign key. *)
Definition related_group (self : Laboratory) (groups : Quota.table)
  : option (Z * Quota.QuotaGroup) :=
  match quota_group self with
  | None => None
  | Some pk =>
      match groups !! pk with
      | Some g => Some (pk, g)
      | None => None
      end
  end.

Definition unlimited : Decimal := (999999 # 1)%Q.

(** [Laboratory.get_available_time]. *)
Definition get_available_time (self : Laboratory) (groups : Quota.table) : Decimal :=
  match related_group self groups with
  | None => unlimited
  | Some (_, g) =>
      match Quota.period_time g with
      | None => unlimited
      | Some p => if Qeq_bool p (-1 # 1)%Q then unlimited else Quota.current_time g
      end
  end.

(** [Laboratory.consume_time]: the group's row after the call. *)
Definition consume_time (self : Laboratory) (hours : Decimal) (groups : Quota.table)
  : Quota.table :=
  match related_group self groups with
  | None => groups
  | Some (pk, g) =>
      if Quota.unmetered (Quota.period_time g) then groups
      else
        Quota.save pk
          (Quota.set_current_time (Quota.current_time g - hours)%Q g) groups
  end.

End Labs.

(** ** Quota time transfers ([quotagroup/forms.py], [quotagroup/views.py]) *)

Module Transfer.
Import Py.

Record QuotaTimeTransaction : Type := mkTransaction {
  user : Z;
  quota_group_donor : Z;
  quota_group_acceptor : Z;
  time_transfer : Decimal;
  datetime_stamp : Z               (* auto_now_add *)
}.

(** The posted form data after the widgets' conversion: [None] stands for a
    value that is absent or not an integer (not a key, for the choice). *)
Record PostData : Type := mkPost {
  hours : option Z;
  minutes : option Z;
  acceptor : option Z
}.

Inductive form_error : Type :=
| invalid_hours | invalid_minutes | invalid_acceptor   (* field errors *)
| not_enough_time | same_group.                        (* added by clean() *)

Record World : Type := mkWorld {
  groups : Quota.table;
  transactions : list QuotaTimeTransaction   (* in order of insertion *)
}.

(** [IntegerField(min_value=0)]. *)
Definition clean_hours (v : option Z) : option Z :=
  match v with
  | Some h => if 0 <=? h then Some h else None
  | None => None
  end.

(** [IntegerField(min_value=0, max_value=59)]. *)
Definition clean_minutes (v : option Z) : option Z :=
  match v with
  | Some m => if (0 <=? m) && (m <=? 59) then Some m else None
  | None => None
  end.

(** The choice field over
    [QuotaGroup.objects.filter(is_active=True).exclude(id=user_quota.id)]. *)
Definition clean_acceptor (user_quota : Z) (gs : Quota.table) (v : option Z)
  : option (Z * Quota.QuotaGroup) :=
  match v with
  | Some pk =>
      match gs !! pk with
      | Some g =>
          if Quota.is_active g && negb (pk =? user_quota) then Some (pk, g)
          else None
      | None => None
      end
  | None => None
  end.

(** [Decimal(hours) + Decimal(minutes) / Decimal(60)]. *)
Definition transfer_amount (h m : Z) : Decimal :=
  (inject_Z h + inject_Z m / inject_Z 60)%Q.

(** The amount [clean] computes from the posted data: a field that did not
    validate counts as 0 ([cleaned_data.get(...) or 0]). *)
Definition requested_amount (data : PostData) : Decimal :=
  transfer_amount (default 0 (clean_hours (hours data)))
    (default 0 (clean_minutes (minutes data))).

Definition error_unless {A} (o : option A) (e : form_error) : list form_error :=
  match o with
  | Some _ => []
  | None => [e]
  end.

(** Field cleaning followed by [QuotaTimeTransactionForm.clean]: the
    acceptor instance, the amount, and the form's errors. [donor] is
    [self.user.laboratory.quota_group]. *)
Definition full_clean (donor : Z * Quota.QuotaGroup) (gs : Quota.table) (data : PostData)
  : option (Z * Quota.QuotaGroup) * Decimal * list form_error :=
  let h := clean_hours (hours data) in
  let m := clean_minutes (minutes data) in
  let acc := clean_acceptor (fst donor) gs (acceptor data) in
  let field_errors :=
    (error_unless h invalid_hours ++ error_unless m invalid_minutes
     ++ error_unless acc invalid_acceptor)%list in
  let amount := requested_amount data in
  let clean_errors :=
    match acc with
    | Some (apk, _) =>
        ((if decimal_ltb (Quota.current_time (snd donor)) amount
          then [not_enough_time] else [])
         ++ (if fst donor =? apk then [same_group] else []))%list
    | None => []
    end in
  (acc, amount, (field_errors ++ clean_errors)%list).

Inductive response : Type :=
| server_error                                  (* uncaught AttributeError *)
| form_invalid (errors : list form_error)
| redirect_success.

(** [QuotaTimeTransferCreateView.form_valid]. *)
Definition form_valid (now : Z) (user_pk : Z) (donor acc : Z * Quota.QuotaGroup)
    (amount : Decimal) (w : World) : World :=
  let '(_, _, g1) := Quota.subtract_time amount (fst donor) (snd donor) (groups w) in
  let '(_, _, g2) := Quota.add_time amount (fst acc) (snd acc) g1 in
  let row := {| user := user_pk; quota_group_donor := fst donor;
                quota_group_acceptor := fst acc; time_transfer := amount;
                datetime_stamp := now |} in
  {| groups := g2; transactions := (transactions w ++ [row])%list |}.

(** A POST to the transfer view by user [user_pk] of laboratory [lab]. *)
Definition post (now : Z) (user_pk : Z) (lab : Labs.Laboratory) (data : PostData)
    (w : World) : response * World :=
  match Labs.related_group lab (groups w) with
  | None => (server_error, w)
  | Some donor =>
      let '(acc, amount, errors) := full_clean donor (groups w) data in
      match errors, acc with
      | [], Some a => (redirect_success, form_valid now user_pk donor a amount w)
      | _, _ => (form_invalid errors, w)
      end
  end.

(** Whether the balance stored for group [k] equals [v]. *)
Definition balance_is (k : Z) (v : Decimal) (w : World) : bool :=
  match groups w !! k with
  | Some g => Qeq_bool (Quota.current_time g) v
  | None => false
  end.

End Transfer.

(** ** Dates, times and durations *)

Module Datetime.
Import Py.

(** A [datetime.date], as its proleptic Gregorian ordinal. *)
Definition date : Type := Z.

(** A [datetime.time]. *)
Record time : Type := mkTime {
  hour : Z; minute : Z; second : Z; microsecond : Z
}.

(** A [timedelta], in microseconds. *)
Definition timedelta : Type := Z.

(** Microseconds since midnight. *)
Definition time_us (t : time) : Z :=
  ((hour t * 60 + minute t) * 60 + second t) * us_per_second + microsecond t.


(** [datetime.combine(d, t)], in microseconds since the start of ordinal 0. *)
Definition combine (d : date) (t : time) : Z := d * us_per_day + time_us t.

(** [timedelta(hours=n)], [timedelta(days=n)]. *)
Definition of_hours (n : Z) : timedelta := n * us_per_hour.
Definition of_days (n : Z) : timedelta := n * us_per_day.

(** The normalised fields [.days] and [.seconds] of a [timedelta]. *)
Definition days (delta : timedelta) : Z := delta / us_per_day.
Definition seconds (delta : timedelta) : Z := (delta mod us_per_day) / us_per_second.

(** [delta.total_seconds() / 3600]. *)
Definition total_hours (delta : timedelta) : Q :=
  (inject_Z delta / inject_Z us_per_hour)%Q.

End Datetime.

(** ** Exceptions and library functions *)

Inductive exn : Type :=
| ValueError | TypeError | DatabaseError | RelatedObjectDoesNotExist.

Inductive result (A : Type) : Type :=
| ret (a : A)
| raise (e : exn).
Arguments ret {A} a.
Arguments raise {A} e.

(** A value that may reach [compute_time_spent] as an object, as a string
    or not at all. *)
Inductive field (A : Type) : Type :=
| absent
| text (s : string)
| value (v : A).
Arguments absent {A}.
Arguments text {A} s.
Arguments value {A} v.

(** Library functions on text that the model takes as given: the two ISO
    parsers ([None] when they raise [ValueError]) and [str] of a [Decimal]. *)
Record PyLib : Type := mkPyLib {
  date_fromisoformat : string -> option Datetime.date;
  time_fromisoformat : string -> option Datetime.time;
  str_of_decimal : Py.Decimal -> string
}.

(** ** Diffractometers, probes, users *)

Record DiffDevice : Type := mkDiffDevice {
  device_name : string;
  is_available : bool;
  time_cons_mult : option Py.Decimal;
  time_cons_night_experiment : option Py.Decimal
}.

Record Probe : Type := mkProbe {
  application : option Z;           (* foreign key, CASCADE *)
  number : Z;
  proc_status : option string;      (* max_length=1 *)
  smpl_type : option string;        (* max_length=2 *)
  data_quantity : option string;    (* max_length=15 *)
  dmin : option Py.Decimal
}.

Record User : Type := mkUser {
  full_name : string;               (* the value of get_full_name() *)
  is_active_operator : bool
}.

(** ** Applications ([application/models.py], [application/signals.py]) *)

Module App.
Import Py.

(** The columns of an application that the modelled code reads or writes. *)
Record Row : Type := mkRow {
  status : string;
  prev_status : option string;   (* null=True *)
  data_status : string;
  prev_data_status : string;
  time_spent : Decimal;
  deadline : option Z;
  asap_priority : bool;
  quota_compensation : option Datetime.timedelta;
  lab : Z;   (* foreign key, PROTECT *)
  diffractometer : Z;   (* foreign key, PROTECT *)
  experiment_start_date : field Datetime.date;
  experiment_start : field Datetime.time;
  experiment_end_date : field Datetime.date;
  experiment_end : field Datetime.time;
  probe_count : nat;
  proc_status_application : string;
  smpl_type_application : string;
  data_quantity_application : string;
  dmin_application : string;
  locked_by : option Z;   (* foreign key to the user *)
  locked_at : option Z
}.

(** The names of these columns, as they appear in [update_fields]. *)
Inductive column : Type :=
| c_status
| c_prev_status
| c_data_status
| c_prev_data_status
| c_time_spent
| c_deadline
| c_asap_priority
| c_quota_compensation
| c_lab
| c_diffractometer
| c_experiment_start_date
| c_experiment_start
| c_experiment_end_date
| c_experiment_end
| c_probe_count
| c_proc_status_application
| c_smpl_type_application
| c_data_quantity_application
| c_dmin_application
| c_locked_by
| c_locked_at.

#[global] Instance column_eq_dec : EqDecision column.
Proof. solve_decision. Defined.

(** The row an UPDATE leaves: the columns chosen by [pick] come from [src],
    the others keep the value they have in [old]. *)
Definition merge (pick : column -> bool) (src old : Row) : Row :=
  {|
    status := if pick c_status then status src else status old;
    prev_status := if pick c_prev_status then prev_status src else prev_status old;
    data_status := if pick c_data_status then data_status src else data_status old;
    prev_data_status := if pick c_prev_data_status then prev_data_status src else prev_data_status old;
    time_spent := if pick c_time_spent then time_spent src else time_spent old;
    deadline := if pick c_deadline then deadline src else deadline old;
    asap_priority := if pick c_asap_priority then asap_priority src else asap_priority old;
    quota_compensation := if pick c_quota_compensation then quota_compensation src else quota_compensation old;
    lab := if pick c_lab then lab src else lab old;
    diffractometer := if pick c_diffractometer then diffractometer src else diffractometer old;
    experiment_start_date := if pick c_experiment_start_date then experiment_start_date src else experiment_start_date old;
    experiment_start := if pick c_experiment_start then experiment_start src else experiment_start old;
    experiment_end_date := if pick c_experiment_end_date then experiment_end_date src else experiment_end_date old;
    experiment_end := if pick c_experiment_end then experiment_end src else experiment_end old;
    probe_count := if pick c_probe_count then probe_count src else probe_count old;
    proc_status_application := if pick c_proc_status_application then proc_status_application src else proc_status_application old;
    smpl_type_application := if pick c_smpl_type_application then smpl_type_application src else smpl_type_application old;
    data_quantity_application := if pick c_data_quantity_application then data_quantity_application src else data_quantity_application old;
    dmin_application := if pick c_dmin_application then dmin_application src else dmin_application old;
    locked_by := if pick c_locked_by then locked_by src else locked_by old;
    locked_at := if pick c_locked_at then locked_at src else locked_at old
  |}.

(** [self.status = v]. *)
Definition set_status (v : string) (r : Row) : Row :=
  {|
    status := v;
    prev_status := prev_status r;
    data_status := data_status r;
    prev_data_status := prev_data_status r;
    time_spent := time_spent r;
    deadline := deadline r;
    asap_priority := asap_priority r;
    quota_compensation := quota_compensation r;
    lab := lab r;
    diffractometer := diffractometer r;
    experiment_start_date := experiment_start_date r;
    experiment_start := experiment_start r;
    experiment_end_date := experiment_end_date r;
    experiment_end := experiment_end r;
    probe_count := probe_count r;
    proc_status_application := proc_status_application r;
    smpl_type_application := smpl_type_application r;
    data_quantity_application := data_quantity_application r;
    dmin_application := dmin_application r;
    locked_by := locked_by r;
    locked_at := locked_at r
  |}.

(** [self.data_status = v]. *)
Definition set_data_status (v : string) (r : Row) : Row :=
  {|
    status := status r;
    prev_status := prev_status r;
    data_status := v;
    prev_data_status := prev_data_status r;
    time_spent := time_spent r;
    deadline := deadline r;
    asap_priority := asap_priority r;
    quota_compensation := quota_compensation r;
    lab := lab r;
    diffractometer := diffractometer r;
    experiment_start_date := experiment_start_date r;
    experiment_start := experiment_start r;
    experiment_end_date := experiment_end_date r;
    experiment_end := experiment_end r;
    probe_count := probe_count r;
    proc_status_application := proc_status_application r;
    smpl_type_application := smpl_type_application r;
    data_quantity_application := data_quantity_application r;
    dmin_application := dmin_application r;
    locked_by := locked_by r;
    locked_at := locked_at r
  |}.

(** [self.time_spent = v]. *)
Definition set_time_spent (v : Decimal) (r : Row) : Row :=
  {|
    status := status r;
    prev_status := prev_status r;
    data_status := data_status r;
    prev_data_status := prev_data_status r;
    time_spent := v;
    deadline := deadline r;
    asap_priority := asap_priority r;
    quota_compensation := quota_compensation r;
    lab := lab r;
    diffractometer := diffractometer r;
    experiment_start_date := experiment_start_date r;
    experiment_start := experiment_start r;
    experiment_end_date := experiment_end_date r;
    experiment_end := experiment_end r;
    probe_count := probe_count r;
    proc_status_application := proc_status_application r;
    smpl_type_application := smpl_type_application r;
    data_quantity_application := data_quantity_application r;
    dmin_application := dmin_application r;
    locked_by := locked_by r;
    locked_at := locked_at r
  |}.

(** [self.prev_status = v]. *)
Definition set_prev_status (v : option string) (r : Row) : Row :=
  {|
    status := status r;
    prev_status := v;
    data_status := data_status r;
    prev_data_status := prev_data_status r;
    time_spent := time_spent r;
    deadline := deadline r;
    asap_priority := asap_priority r;
    quota_compensation := quota_compensation r;
    lab := lab r;
    diffractometer := diffractometer r;
    experiment_start_date := experiment_start_date r;
    experiment_start := experiment_start r;
    experiment_end_date := experiment_end_date r;
    experiment_end := experiment_end r;
    probe_count := probe_count r;
    proc_status_application := proc_status_application r;
    smpl_type_application := smpl_type_application r;
    data_quantity_application := data_quantity_application r;
    dmin_application := dmin_application r;
    locked_by := locked_by r;
    locked_at := locked_at r
  |}.

(** [self.prev_data_status = d; self.prev_status = s]. *)
Definition set_prev (d : string) (s : option string) (r : Row) : Row :=
  {|
    status := status r;
    prev_status := s;
    data_status := data_status r;
    prev_data_status := d;
    time_spent := time_spent r;
    deadline := deadline r;
    asap_priority := asap_priority r;
    quota_compensation := quota_compensation r;
    lab := lab r;
    diffractometer := diffractometer r;
    experiment_start_date := experiment_start_date r;
    experiment_start := experiment_start r;
    experiment_end_date := experiment_end_date r;
    experiment_end := experiment_end r;
    probe_count := probe_count r;
    proc_status_application := proc_status_application r;
    smpl_type_application := smpl_type_application r;
    data_quantity_application := data_quantity_application r;
    dmin_application := dmin_application r;
    locked_by := locked_by r;
    locked_at := locked_at r
  |}.

(** [self.locked_by = u; self.locked_at = t]. *)
Definition set_lock (u t : option Z) (r : Row) : Row :=
  {|
    status := status r;
    prev_status := prev_status r;
    data_status := data_status r;
    prev_data_status := prev_data_status r;
    time_spent := time_spent r;
    deadline := deadline r;
    asap_priority := asap_priority r;
    quota_compensation := quota_compensation r;
    lab := lab r;
    diffractometer := diffractometer r;
    experiment_start_date := experiment_start_date r;
    experiment_start := experiment_start r;
    experiment_end_date := experiment_end_date r;
    experiment_end := experiment_end r;
    probe_count := probe_count r;
    proc_status_application := proc_status_application r;
    smpl_type_application := smpl_type_application r;
    data_quantity_application := data_quantity_application r;
    dmin_application := dmin_application r;
    locked_by := u;
    locked_at := t
  |}.

(** The five assignments of [update_aggregated_fields]. *)
Definition set_aggregates (n : nat) (ps st dq dm : string) (r : Row) : Row :=
  {|
    status := status r;
    prev_status := prev_status r;
    data_status := data_status r;
    prev_data_status := prev_data_status r;
    time_spent := time_spent r;
    deadline := deadline r;
    asap_priority := asap_priority r;
    quota_compensation := quota_compensation r;
    lab := lab r;
    diffractometer := diffractometer r;
    experiment_start_date := experiment_start_date r;
    experiment_start := experiment_start r;
    experiment_end_date := experiment_end_date r;
    experiment_end := experiment_end r;
    probe_count := n;
    proc_status_application := ps;
    smpl_type_application := st;
    data_quantity_application := dq;
    dmin_application := dm;
    locked_by := locked_by r;
    locked_at := locked_at r
  |}.

(** A model instance in memory: the primary key, the column values and the
    two attributes that [Application.__init__] adds. *)
Record Instance : Type := mkInstance {
  pk : option Z;
  row : Row;
  _current_time : Decimal;
  _prev_status : string
}.

Definition with_row (r : Row) (self : Instance) : Instance :=
  {| pk := pk self; row := r;
     _current_time := _current_time self; _prev_status := _prev_status self |}.

Definition with_pk (k : Z) (self : Instance) : Instance :=
  {| pk := Some k; row := row self;
     _current_time := _current_time self; _prev_status := _prev_status self |}.

Definition with_prev_status (s : string) (self : Instance) : Instance :=
  {| pk := pk self; row := row self;
     _current_time := _current_time self; _prev_status := s |}.

(** [Application.__init__] after the fields are set, for a new object and
    for one loaded from its row. *)
Definition init (k : option Z) (r : Row) : Instance :=
  {| pk := k; row := r; _current_time := time_spent r; _prev_status := status r |}.

Definition from_db (k : Z) (r : Row) : Instance := init (Some k) r.

(** The test [if self.pk:]. *)
Definition pk_truthy (self : Instance) : option Z :=
  match pk self with
  | Some k => if k =? 0 then None else Some k
  | None => None
  end.

(** The property [previous_status]. *)
Definition previous_status (self : Instance) : string := _prev_status self.

(** Calls made to the collaborators. *)
Inductive event : Type :=
| completed_email (application : Z)        (* send_application_completed_email *)
| rejected_email (application : Z)         (* send_application_rejected_email *)
| data_published_email (application : Z)   (* send_data_published_email *)
| plot_quota_time.                         (* plot_quota_time_signal() *)

Record World : Type := mkWorld {
  applications : gmap Z Row;
  probes : gmap Z Probe;
  laboratories : Labs.table;
  quota_groups : Quota.table;
  diffdevices : gmap Z DiffDevice;
  users : gmap Z User;
  outbox : list event                       (* oldest call first *)
}.

Definition with_applications (a : gmap Z Row) (w : World) : World :=
  {| applications := a; probes := probes w; laboratories := laboratories w;
     quota_groups := quota_groups w; diffdevices := diffdevices w;
     users := users w; outbox := outbox w |}.

Definition with_quota_groups (g : Quota.table) (w : World) : World :=
  {| applications := applications w; probes := probes w;
     laboratories := laboratories w; quota_groups := g;
     diffdevices := diffdevices w; users := users w; outbox := outbox w |}.

Definition emit (e : event) (w : World) : World :=
  {| applications := applications w; probes := probes w;
     laboratories := laboratories w; quota_groups := quota_groups w;
     diffdevices := diffdevices w; users := users w;
     outbox := (outbox w ++ [e])%list |}.

(** *** The priority property *)

(** [Application.priority], with [now] the reading of [timezone.now()]. *)
Definition priority (now : Z) (self : Row) : Q :=
  if asap_priority self then (100 # 1)%Q
  else
    match deadline self with
    | None => (0 # 1)%Q
    | Some d =>
        let time_left := d - now in
        if time_left <=? 0 then (101 # 1)%Q
        else
          let days_left :=
            (inject_Z (Datetime.days time_left)
             + inject_Z (Datetime.seconds time_left) / inject_Z 86400)%Q in
          if decimal_ltb (14 # 1)%Q days_left then (0 # 1)%Q
          else
            Py.min (100 # 1)%Q
              (round2 ((100 # 1) * ((1 # 1) - days_left / (14 # 1))))%Q
    end.

(** *** Time spent *)

#[global] Instance result_bind : MBind result :=
  fun A B f r =>
    match r with
    | ret a => f a
    | raise e => raise e
    end.

(** Truth value of an argument: [None] and [''] are falsy, dates and
    times are truthy. *)
Definition truthy {A} (f : field A) : bool :=
  match f with
  | absent => false
  | text s => str_truthy s
  | value _ => true
  end.

(** [if isinstance(x, str): x = T.fromisoformat(x)]. *)
Definition coerce {A} (parse : string -> option A) (f : field A) : result A :=
  match f with
  | value v => ret v
  | text s =>
      match parse s with
      | Some v => ret v
      | None => raise ValueError
      end
  | absent => raise TypeError
  end.

(** [Application.compute_time_spent]. [devices] resolves
    [self.diffractometer]. *)
Definition compute_time_spent (py : PyLib) (devices : gmap Z DiffDevice) (self : Row)
    (sd : field Datetime.date) (st : field Datetime.time)
    (ed : field Datetime.date) (et : field Datetime.time)
  : result (option Decimal) :=
  if negb (truthy sd && truthy st && truthy ed && truthy et) then ret None
  else
    sd ← coerce (date_fromisoformat py) sd;
    ed ← coerce (date_fromisoformat py) ed;
    st ← coerce (time_fromisoformat py) st;
    et ← coerce (time_fromisoformat py) et;
    if negb (sd =? ed) then
      match devices !! diffractometer self with
      | None => raise RelatedObjectDoesNotExist
      | Some device =>
          match time_cons_night_experiment device with
          | None => raise TypeError            (* float(None) *)
          | Some hours => ret (Some (round2 hours))
          end
      end
    else
      let start_dt := Datetime.combine sd st in
      let end_dt := Datetime.combine ed et in
      let end_dt :=
        if end_dt <? start_dt then end_dt + Datetime.of_days 1 else end_dt in
      let delta := end_dt - start_dt in
      let delta :=
        match quota_compensation self with
        | Some qc => if qc =? 0 then delta else delta + qc
        | None => delta
        end in
      ret (Some (round2 (Datetime.total_hours delta))).


(** *** Signal receivers *)

(** [pre_save]: [application_status_changed]. *)
Definition application_status_changed (instance : Instance) (w : World) : World :=
  if String.eqb (status (row instance)) "completed" then
    match pk_truthy instance with
    | Some k =>
        if negb (String.eqb (previous_status instance) "completed")
        then emit plot_quota_time (emit (completed_email k) w)
        else w
    | None => w
    end
  else if String.eqb (status (row instance)) "rejected" then
    match pk_truthy instance with
    | Some k =>
        if negb (String.eqb (previous_status instance) "rejected")
        then emit plot_quota_time (emit (rejected_email k) w)
        else w
    | None => w
    end
  else w.

(** [post_save]: [application_data_status_changed]. *)
Definition application_data_status_changed (instance : Instance) (w : World) : World :=
  if String.eqb (data_status (row instance)) "DATA_SENT" then
    match pk_truthy instance with
    | Some k =>
        if negb (String.eqb (prev_data_status (row instance)) "DATA_SENT")
        then emit (data_published_email k) w
        else w
    | None => w
    end
  else w.

(** The filter of [check_if_period_needs_refresh]; a NULL [period_time]
    does not satisfy [period_time = -1]. *)
Definition not_needing_refresh (g : Quota.QuotaGroup) : bool :=
  Quota.main g
  && (Qle_bool 0 (Quota.current_time g)
      || match Quota.period_time g with
         | Some p => Qeq_bool p (-1 # 1)%Q
         | None => false
         end
      || Quota.is_active g).

(** [check_if_period_needs_refresh] ([quotagroup/views.py]). *)
Definition check_if_period_needs_refresh (w : World) : bool :=
  let gs :=
    List.filter (fun kg => not_needing_refresh (snd kg))
      (map_to_list (quota_groups w)) in
  match gs with
  | [] => true
  | _ =>
      let labs :=
        List.filter
          (fun kl =>
             match Labs.quota_group (snd kl) with
             | Some g => existsb (fun kg => fst kg =? g) gs
             | None => false
             end)
          (map_to_list (laboratories w)) in
      let submitted :=
        List.filter
          (fun ka =>
             existsb (fun kl => fst kl =? lab (snd ka)) labs
             && String.eqb (status (snd ka)) "submitted")
          (map_to_list (applications w)) in
      Nat.eqb (length submitted) 0
  end.

(** [refresh_period_time]: [reset_quota] on every group that is updated
    with the period. *)
Definition refresh_period_time (now : Z) (w : World) : World :=
  let qgs :=
    List.filter (fun kg => Quota.update_time_on_period (snd kg))
      (map_to_list (quota_groups w)) in
  with_quota_groups
    (fold_left (fun gs kg => snd (Quota.reset_quota now (fst kg) (snd kg) gs))
       qgs (quota_groups w))
    w.

(** [post_save]: [handle_application_time]. The object it re-reads has
    [previous_status] equal to the status just stored. *)
Definition handle_application_time (now : Z) (instance : Instance) (w : World) : World :=
  match pk_truthy instance with
  | None => w
  | Some k =>
      match applications w !! k with
      | None => w
      | Some old =>
          if String.eqb (previous_status (from_db k old)) "submitted"
             && negb (String.eqb (status (row instance)) "submitted")
          then
            if check_if_period_needs_refresh w then refresh_period_time now w
            else w
          else w
      end
  end.

(** *** Saving *)

(** A key no row of the table uses. *)
Definition fresh_pk (m : gmap Z Row) : Z :=
  1 + map_fold (fun k _ acc => Z.max k acc) 0 m.

(** The INSERT or UPDATE of Django's [Model.save]. *)
Definition save_table (update_fields : option (list column)) (self : Instance)
    (w : World) : result (Instance * World) :=
  match pk self, update_fields with
  | None, Some _ => raise ValueError
  | None, None =>
      let k := fresh_pk (applications w) in
      ret (with_pk k self, with_applications (<[k := row self]> (applications w)) w)
  | Some k, None =>
      ret (self, with_applications (<[k := row self]> (applications w)) w)
  | Some k, Some fs =>
      match applications w !! k with
      | None => raise DatabaseError
      | Some old =>
          let new := merge (fun c => bool_decide (c ∈ fs)) (row self) old in
          ret (self, with_applications (<[k := new]> (applications w)) w)
      end
  end.

(** [models.Model.save] for an application, reached as [super().save(...)]:
    the [pre_save] receiver, the write, the two [post_save] receivers in
    the order of their registration. An empty [update_fields] returns at
    once. *)
Definition model_save (now : Z) (update_fields : option (list column))
    (self : Instance) (w : World) : result (Instance * World) :=
  match update_fields with
  | Some [] => ret (self, w)
  | _ =>
      let w1 := application_status_changed self w in
      sw ← save_table update_fields self w1;
      let w3 := handle_application_time now (fst sw) (snd sw) in
      ret (fst sw, application_data_status_changed (fst sw) w3)
  end.

(** *** Aggregated fields *)

Definition spade : string := "♠".

(** [safe_str]: [str(v or '♠')], for a text value and for a [Decimal]. *)
Definition safe_str (v : option string) : string :=
  match v with
  | Some s => if str_truthy s then s else spade
  | None => spade
  end.

Definition safe_str_decimal (py : PyLib) (v : option Decimal) : string :=
  match v with
  | Some d => if decimal_truthy d then str_of_decimal py d else spade
  | None => spade
  end.

(** The order of [order_by('number')]. *)
Definition by_number (p q : Probe) : Prop := number p <= number q.

#[global] Instance by_number_dec : RelDecision by_number.
Proof. intros p q. unfold by_number. apply _. Defined.

(** Whether probe [p] belongs to the application stored under [k]. *)
Definition probe_of (k : Z) (p : Probe) : bool :=
  match application p with
  | Some a => a =? k
  | None => false
  end.

(** [self.probes.order_by('number')] for the application stored under [k]. *)
Definition probes_of (k : Z) (w : World) : list Probe :=
  merge_sort by_number
    (List.filter (probe_of k) (List.map snd (map_to_list (probes w)))).

Definition aggregated_columns : list column :=
  [c_proc_status_application; c_smpl_type_application;
   c_data_quantity_application; c_dmin_application; c_probe_count].

(** The row of the instance after the assignments of
    [update_aggregated_fields], for the probes [ps]. *)
Definition aggregate (py : PyLib) (ps : list Probe) (r : Row) : Row :=
  set_aggregates (length ps)
    (join (List.map (fun p => safe_str (proc_status p)) ps))
    (join (List.map (fun p => safe_str (smpl_type p)) ps))
    (join (List.map (fun p => safe_str (data_quantity p)) ps))
    (join (List.map (fun p => safe_str_decimal py (dmin p)) ps))
    r.

(** [Application.update_aggregated_fields]. *)
Definition update_aggregated_fields (py : PyLib) (now : Z) (self : Instance)
    (w : World) : result (Instance * World) :=
  match pk self with
  | None => raise ValueError
  | Some k =>
      model_save now (Some aggregated_columns)
        (with_row (aggregate py (probes_of k w) (row self)) self) w
  end.

(** The part of [Application.save] guarded by
    [if not ('update_fields' in kwargs)]: recompute the time and charge the
    laboratory. *)
Definition update_time (py : PyLib) (self : Instance) (w : World)
  : result (Instance * World) :=
  let r := row self in
  tsc ← compute_time_spent py (diffdevices w) r
           (experiment_start_date r) (experiment_start r)
           (experiment_end_date r) (experiment_end r);
  match tsc with
  | Some t =>
      if decimal_truthy t then
        let hours :=
          if decimal_truthy (_current_time self)
          then (t - _current_time self)%Q else t in
        match laboratories w !! lab r with
        | None => raise RelatedObjectDoesNotExist
        | Some l =>
            ret (with_row (set_time_spent t r) self,
                 with_quota_groups (Labs.consume_time l hours (quota_groups w)) w)
        end
      else ret (self, w)
  | None => ret (self, w)
  end.

(** [Application.save]; [update_fields] is [None] when the keyword is not
    passed. *)
Definition save (py : PyLib) (now : Z) (update_fields : option (list column))
    (self : Instance) (w : World) : result (Instance * World) :=
  sw ← match pk_truthy self with
       | Some k =>
           sw ← match update_fields with
                | None => update_time py self w
                | Some _ => ret (self, w)
                end;
           match applications (snd sw) !! k with
           | Some old_instance =>
               ret (with_row
                      (set_prev (data_status old_instance)
                         (Some (status old_instance)) (row (fst sw)))
                      (fst sw),
                    snd sw)
           | None =>               (* except Application.DoesNotExist *)
               ret (with_row (set_prev_status None (row (fst sw))) (fst sw),
                    snd sw)
           end
       | None => ret (with_row (set_prev_status None (row self)) self, w)
       end;
  let created := match pk_truthy self with Some _ => false | None => true end in
  sw ← model_save now update_fields (fst sw) (snd sw);
  let self' := with_prev_status (status (row (fst sw))) (fst sw) in
  if created && String.eqb (status (row self')) "completed"
  then update_aggregated_fields py now self' (snd sw)
  else ret (self', snd sw).

End App.

(** ** The processing view's lock ([application/views.py],
    [ApplicationProcessView.dispatch]) *)

Module ProcessView.
Import App.

(** [Application.operator_lock_cooldown = timedelta(hours=2)]. *)
Definition operator_lock_cooldown : Datetime.timedelta := Datetime.of_hours 2.

Definition lock_columns : list column := [c_locked_by; c_locked_at].

Definition conflict_prefix : string := "Заявка выполняется оператором ".

Inductive outcome : Type :=
| not_found                            (* Http404 from get_object *)
| not_admitted                         (* anonymous, or not an active operator *)
| permission_denied (message : string) (* PermissionDenied for a held lock *)
| failed (e : exn)                     (* an uncaught exception *)
| proceed.                             (* super().dispatch(...) is entered *)

(** The three statements that take the lock for user [u] at time [stamp]. *)
Definition acquire (py : PyLib) (stamp : Z) (u : Z) (self : Instance) (w : World)
  : outcome * World :=
  let self' := with_row (set_lock (Some u) (Some stamp) (row self)) self in
  match save py stamp (Some lock_columns) self' w with
  | ret sw => (proceed, snd sw)
  | raise e => (failed e, w)
  end.

(** [dispatch] up to the call of [super().dispatch]. [tick n] is the n-th
    reading of [timezone.now()] made during the request, [request_user] the
    key of the authenticated user ([None] when anonymous), [k] the
    application that [get_object] finds. *)
Definition dispatch (py : PyLib) (tick : nat -> Z) (request_user : option Z)
    (k : Z) (w : World) : outcome * World :=
  match applications w !! k with
  | None => (not_found, w)
  | Some r =>
      let self := from_db k r in
      match request_user with
      | None => (not_admitted, w)
      | Some u =>
          match users w !! u with
          | None => (not_admitted, w)
          | Some user =>
              if negb (is_active_operator user) then (not_admitted, w)
              else
                match locked_by r with
                | Some holder =>
                    if negb (holder =? u) then
                      match locked_at r with
                      | None => (failed TypeError, w)
                      | Some locked =>
                          let now := tick 0%nat in
                          let diff := now - locked in
                          if diff <? operator_lock_cooldown then
                            match users w !! holder with
                            | Some h =>
                                (permission_denied
                                   (conflict_prefix ++ full_name h)%string, w)
                            | None => (failed RelatedObjectDoesNotExist, w)
                            end
                          else acquire py (tick 1%nat) u self w
                      end
                    else acquire py (tick 0%nat) u self w
                | None => acquire py (tick 0%nat) u self w
                end
          end
      end
  end.

(** The world in which user [u] holds the lock on application [k] since
    [stamp], all else as in [w]. *)
Definition locked_for (u stamp k : Z) (r : Row) (w : World) : World :=
  with_applications (<[k := set_lock (Some u) (Some stamp) r]> (applications w)) w.

End ProcessView.

(** ** Gated actions ([notification/models.py]) *)

Module Notification.

Record NotificationIssue : Type := mkIssue {
  method : string;
  kwargs : list (string * string)
}.

Record NotificationRelations : Type := mkRelations {
  logic_dependence : string;       (* '&' or '|' *)
  is_active : bool;
  issue : Z
}.

(** A pending, accepted or rejected notification: only its link to the
    relation matters here. *)
Record Response : Type := mkResponse {
  notification_relations : option Z
}.

Record World : Type := mkWorld {
  relations : gmap Z NotificationRelations;
  pending_notifications : gmap Z Response;
  accepted_notifications : gmap Z Response;
  rejected_notifications : gmap Z Response
}.

(** [self.issue_notifications.filter(is_active=True)]. *)
Definition active_relations (issue_pk : Z) (w : World)
  : list (Z * NotificationRelations) :=
  List.filter (fun kr => (issue (snd kr) =? issue_pk) && is_active (snd kr))
    (map_to_list (relations w)).

(** [bool(relation.<kind>_notifications.all())]. *)
Definition has_response (rel : Z) (t : gmap Z Response) : bool :=
  existsb
    (fun kn => match notification_relations (snd kn) with
               | Some r => r =? rel
               | None => false
               end)
    (map_to_list t).

(** One turn of the loop of [is_action_allowed]: [false] when the loop
    returns [False] at this relation. *)
Definition gate (w : World) (kr : Z * NotificationRelations) : bool :=
  if String.eqb (logic_dependence (snd kr)) "&" then
    negb (has_response (fst kr) (rejected_notifications w)
          || has_response (fst kr) (pending_notifications w))
  else if String.eqb (logic_dependence (snd kr)) "|" then
    has_response (fst kr) (accepted_notifications w)
  else true.

(** The property [is_action_allowed]. *)
Definition is_action_allowed (issue_pk : Z) (w : World) : bool :=
  forallb (gate w) (active_relations issue_pk w).

(** [method_mapping]. *)
Definition method_mapping (code : string) : option string :=
  if String.eqb code "chgsp" then Some "dummymethod1"
  else if String.eqb code "chglb" then Some "dummymethod2"
  else if String.eqb code "dummymethod3" then Some "dummymethod3"
  else None.

Inductive log : Type :=
| unknown_action (code : string)
| not_implemented (method_name : string)
| error_executing (method_name : string).

(** What [getattr(self, name, None)] finds: a callable that, given the
    kwargs, either returns or raises ([false]); [None] when there is no
    such attribute or it is not callable. *)
Definition attributes : Type := string -> option (list (string * string) -> bool).

(** [try_action] from the mapping lookup on: the result and the log. *)
Definition run_handler (attrs : attributes) (self : NotificationIssue)
  : bool * list log :=
  match method_mapping (method self) with
  | None => (false, [unknown_action (method self)])
  | Some method_name =>
      match attrs method_name with
      | None => (false, [not_implemented method_name])
      | Some handler =>
          if handler (kwargs self) then (true, [])
          else (false, [error_executing method_name])
      end
  end.

(** [NotificationIssue.try_action]. *)
Definition try_action (attrs : attributes) (issue_pk : Z) (self : NotificationIssue)
    (w : World) : bool * list log :=
  if negb (is_action_allowed issue_pk w) then (false, [])
  else run_handler attrs self.

(** The attributes of [NotificationIssue] as the source has them: none of
    the three mapped methods is defined on the class. *)
Definition class_attributes : attributes := fun _ => None.

End Notification.

(** ** Sample data *)

Module Samples.
Import App.

(** Text functions for the examples: the parsers accept nothing, and every
    [Decimal] prints as "0.84". *)
Definition py : PyLib :=
  {| date_fromisoformat := fun _ => None;
     time_fromisoformat := fun _ => None;
     str_of_decimal := fun _ => "0.84" |}.

(** A submitted application of laboratory 1 on diffractometer 1, with the
    model's default values elsewhere. *)
Definition blank : Row :=
  {| status := "submitted"; prev_status := None;
     data_status := "NO_DATA"; prev_data_status := "";
     time_spent := (0 # 1)%Q; deadline := None; asap_priority := false;
     quota_compensation := None; lab := 1; diffractometer := 1;
     experiment_start_date := absent; experiment_start := absent;
     experiment_end_date := absent; experiment_end := absent;
     probe_count := 0%nat; proc_status_application := "";
     smpl_type_application := ""; data_quantity_application := "";
     dmin_application := ""; locked_by := None; locked_at := None |}.

(** The same application with a deadline and the ASAP flag given. *)
Definition with_urgency (d : option Z) (asap : bool) (r : Row) : Row :=
  {|
    status := status r;
    prev_status := prev_status r;
    data_status := data_status r;
    prev_data_status := prev_data_status r;
    time_spent := time_spent r;
    deadline := d;
    asap_priority := asap;
    quota_compensation := quota_compensation r;
    lab := lab r;
    diffractometer := diffractometer r;
    experiment_start_date := experiment_start_date r;
    experiment_start := experiment_start r;
    experiment_end_date := experiment_end_date r;
    experiment_end := experiment_end r;
    probe_count := probe_count r;
    proc_status_application := proc_status_application r;
    smpl_type_application := smpl_type_application r;
    data_quantity_application := data_quantity_application r;
    dmin_application := dmin_application r;
    locked_by := locked_by r;
    locked_at := locked_at r
  |}.

(** The same application with the experiment's dates and times given. *)
Definition with_experiment (sd : field Datetime.date) (st : field Datetime.time) (ed : field Datetime.date) (et : field Datetime.time) (qc : option Datetime.timedelta) (r : Row) : Row :=
  {|
    status := status r;
    prev_status := prev_status r;
    data_status := data_status r;
    prev_data_status := prev_data_status r;
    time_spent := time_spent r;
    deadline := deadline r;
    asap_priority := asap_priority r;
    quota_compensation := qc;
    lab := lab r;
    diffractometer := diffractometer r;
    experiment_start_date := sd;
    experiment_start := st;
    experiment_end_date := ed;
    experiment_end := et;
    probe_count := probe_count r;
    proc_status_application := proc_status_application r;
    smpl_type_application := smpl_type_application r;
    data_quantity_application := data_quantity_application r;
    dmin_application := dmin_application r;
    locked_by := locked_by r;
    locked_at := locked_at r
  |}.

(** Quota groups with 10 hours left: one of each regime. The metered one
    gets 5 hours per period, up to 12. *)
Definition group (period : option Py.Decimal) : Quota.QuotaGroup :=
  {| Quota.name := "group"; Quota.main := true;
     Quota.update_time_on_period := true; Quota.is_active := true;
     Quota.period_time := period; Quota.max_time := Some (12 # 1)%Q;
     Quota.current_time := (10 # 1)%Q; Quota.quota_reset_time := (10 # 1)%Q;
     Quota.last_reset := 0; Quota.next_reset := None |}.

Definition unlimited_group : Quota.QuotaGroup := group None.
Definition exempt_group : Quota.QuotaGroup := group (Some (-1 # 1)%Q).
Definition metered_group : Quota.QuotaGroup := group (Some (5 # 1)%Q).

(** A table holding the exempt group under key 1. *)
Definition exempt_table : Quota.table := {[ 1 := exempt_group ]}.

(** Two metered groups with 10 hours each and no transfer recorded. *)
Definition ledger : Transfer.World :=
  {| Transfer.groups := {[ 1 := metered_group; 2 := metered_group ]};
     Transfer.transactions := [] |}.

(** Requests to move [h] hours to group [acc]. *)
Definition request (h : Z) (acc : Z) : Transfer.PostData :=
  {| Transfer.hours := Some h; Transfer.minutes := Some 0;
     Transfer.acceptor := Some acc |}.

(** A laboratory of quota group [g]. *)
Definition laboratory (g : option Z) : Labs.Laboratory :=
  {| Labs.lab_code := "L"; Labs.name := "Laboratory";
     Labs.short_name := Some "Lab"; Labs.quota_group := g |}.

(** Times of day, and a diffractometer that bills 8 hours for a night. *)
Definition at_ (h m : Z) : Datetime.time :=
  {| Datetime.hour := h; Datetime.minute := m;
     Datetime.second := 0; Datetime.microsecond := 0 |}.

Definition device : DiffDevice :=
  {| device_name := "D8"; is_available := true;
     time_cons_mult := Some (1 # 1)%Q;
     time_cons_night_experiment := Some (8 # 1)%Q |}.

Definition devices : gmap Z DiffDevice := {[ 1 := device ]}.

(** Application 5: recorded with 1 hour, now carrying an experiment of
    three hours (10:00 to 13:00 on one date). *)
Definition three_hours : Row :=
  with_experiment (value 739000) (value (at_ 10 0)) (value 739000)
    (value (at_ 13 0)) None (set_time_spent (1 # 1)%Q blank).

(** A database holding that application as recorded, its laboratory and
    the laboratory's quota group [g]. *)
Definition world (app : Row) (g : Quota.QuotaGroup) : World :=
  {| applications := {[ 5 := app ]};
     probes := ∅;
     laboratories := {[ 1 := laboratory (Some 1) ]};
     quota_groups := {[ 1 := g ]};
     diffdevices := devices;
     users := ∅;
     outbox := [] |}.

(** Probes of application 5. *)
Definition probe (n : Z) (ps st : option string) : Probe :=
  {| application := Some 5; number := n; proc_status := ps;
     smpl_type := st; data_quantity := None; dmin := None |}.

(** Three probes stored out of order, with statuses '<', None, '>' for
    the numbers 1, 2, 3. *)
Definition three_probes : World :=
  {| applications := {[ 5 := blank ]};
     probes := {[ 11 := probe 3 (Some ">") None;
                  12 := probe 1 (Some "<") None;
                  13 := probe 2 None None ]};
     laboratories := ∅; quota_groups := ∅; diffdevices := ∅; users := ∅;
     outbox := [] |}.

(** One probe, a monocrystal ('MC'). *)
Definition one_probe : World :=
  {| applications := {[ 5 := blank ]};
     probes := {[ 11 := probe 1 (Some ".") (Some "MC") ]};
     laboratories := ∅; quota_groups := ∅; diffdevices := ∅; users := ∅;
     outbox := [] |}.

(** Two active operators, and application 5 held by the first since time 0. *)
Definition operators : gmap Z User :=
  {[ 1 := {| full_name := "Ivanov Ivan"; is_active_operator := true |};
     2 := {| full_name := "Petrov Petr"; is_active_operator := true |} ]}.

Definition held : Row := set_lock (Some 1) (Some 0) blank.

Definition locked_world : World :=
  {| applications := {[ 5 := held ]};
     probes := ∅; laboratories := ∅; quota_groups := ∅; diffdevices := ∅;
     users := operators; outbox := [] |}.

(** A clock that reads [h] hours at every reading. *)
Definition clock (h : Z) : nat -> Z := fun _ => Datetime.of_hours h.

(** An issue whose only relation, an '&' gate with a pending response, is
    switched off; and a handler table that knows the first mapped method. *)
Definition issue : Notification.NotificationIssue :=
  {| Notification.method := "chgsp"; Notification.kwargs := [] |}.

Definition switched_off : Notification.World :=
  {| Notification.relations :=
       {[ 1 := {| Notification.logic_dependence := "&";
                  Notification.is_active := false;
                  Notification.issue := 9 |} ]};
     Notification.pending_notifications :=
       {[ 1 := {| Notification.notification_relations := Some 1 |} ]};
     Notification.accepted_notifications := ∅;
     Notification.rejected_notifications := ∅ |}.

Definition handlers : Notification.attributes :=
  fun name => if String.eqb name "dummymethod1" then Some (fun _ => true) else None.

(** A completed application whose data were sent: the row as the full save
    that made the transition left it, the previous data status recorded as
    'DATA_REDUCED'. *)
Definition sent : Row :=
  set_prev "DATA_REDUCED" (Some "submitted")
    (set_data_status "DATA_SENT" (set_status "completed" blank)).

(** A completed application whose data are reduced and not yet sent. *)
Definition reduced : Row :=
  set_prev "NEED_REDUCTION" (Some "submitted")
    (set_data_status "DATA_REDUCED" (set_status "completed" blank)).

(** A database holding application 5 as [app], without probes. *)
Definition archive (app : Row) : World :=
  {| applications := {[ 5 := app ]};
     probes := ∅; laboratories := ∅; quota_groups := ∅; diffdevices := ∅;
     users := ∅; outbox := [] |}.

(** An application that is both ASAP and overdue at time 0. *)
Definition overdue_asap : Row := with_urgency (Some 0) true blank.

End Samples.

(** ** Status sets of probes and the data status they imply
    ([probe/models.py], [application/views.py]) *)

Module ProbeStatuses.
Import ProcStatus.

(** [Probe.get_need_reduction_statuses], [get_need_send_statuses],
    [get_sent_statuses]. *)
Definition get_need_reduction_statuses : list string := [SC_NR; PW_NR; RE_R].
Definition get_need_send_statuses : list string := [SC_R; PW_R].
Definition get_sent_statuses : list string := [SC_RS; PW_RS].

(** The values of [ProcStatus.processing_options], the statuses offered in
    the processing form. *)
Definition processing_options : list string :=
  [TRASH; SC_NR; SC_R; RE_R; FA_R; PW_NR; PW_R; EI_C; EI_O; C_REJ; NC; LP].

(** [status in statuses]. *)
Definition member (status : option string) (statuses : list string) : bool :=
  existsb (matches status) statuses.

(** The data status that [ApplicationProcessView.form_valid] derives from
    the statuses of the probes it saved; [current] is the value the instance
    has before the chain of tests. *)
Definition data_status_for (new_probes_statuses : list (option string))
    (current : string) : string :=
  let need_reduction_statuses := get_need_reduction_statuses in
  let need_send_statuses := get_need_send_statuses in
  let sent_statuses := get_sent_statuses in
  let not_no_data_statuses :=
    (need_reduction_statuses ++ need_send_statuses ++ sent_statuses)%list in
  let no_data_flag :=
    forallb (fun s => negb (member s not_no_data_statuses)) new_probes_statuses in
  let need_send_flag :=
    existsb (fun s => member s need_send_statuses) new_probes_statuses in
  let need_reduction_flag :=
    existsb (fun s => member s need_reduction_statuses) new_probes_statuses in
  let some_sent_flag :=
    existsb (fun s => member s sent_statuses) new_probes_statuses in
  if no_data_flag then "NO_DATA"
  else if some_sent_flag && negb (need_send_flag || need_reduction_flag)
       then "DATA_SENT"
  else if need_reduction_flag then "NEED_REDUCTION"
  else if need_send_flag && negb need_reduction_flag then "DATA_REDUCED"
  else current.

(** The override that follows for the actions 'completed' and 'rejected':
    a rejection resets the data status. *)
Definition data_status_after_action (action : option string) (ds : string) : string :=
  if matches action "completed" then ds
  else if matches action "rejected" then "NO_DATA"
  else ds.

End ProbeStatuses.

(** ** The group a reset leaves *)

Module Refresh.

(** The instance [reset_quota] returns: it depends on the group and the
    time only, not on the key or the table. *)
Definition reset_row (now : Z) (g : Quota.QuotaGroup) : Quota.QuotaGroup :=
  fst (Quota.reset_quota now 0 g ∅).

End Refresh.

(** ** More sample data *)

Module Samples2.
Import App.

(** A world with two quota groups, the metered one updated with the period
    and the exempt one not, and nothing else. *)
Definition two_groups : World :=
  {| applications := ∅; probes := ∅; laboratories := ∅;
     quota_groups := {[ 1 := Samples.metered_group; 2 := Samples.exempt_group ]};
     diffdevices := ∅; users := ∅; outbox := [] |}.

End Samples2.

(** ** The mails a save sends *)

Module Mails.
Import App.

(** The calls of [application_status_changed] for an instance with key [k],
    status [status] and remembered status [prev]. *)
Definition status_mails (k : Z) (status prev : string) : list event :=
  if String.eqb status "completed" then
    if negb (String.eqb prev "completed") then [completed_email k; plot_quota_time]
    else []
  else if String.eqb status "rejected" then
    if negb (String.eqb prev "rejected") then [rejected_email k; plot_quota_time]
    else []
  else [].

(** The call of [application_data_status_changed] for an instance with key
    [k], data status [ds] and previous data status [prev]. *)
Definition data_mails (k : Z) (ds prev : string) : list event :=
  if String.eqb ds "DATA_SENT" then
    if negb (String.eqb prev "DATA_SENT") then [data_published_email k] else []
  else [].

End Mails.


(** * Releasing the lock *)

Module Locks.
Import App ProcessView.

(** [ApplicationProcessView.release_lock] on the view's object. *)
Definition release_lock (py : PyLib) (now : Z) (self : Instance) (w : World)
  : result (Instance * World) :=
  save py now (Some lock_columns) (with_row (set_lock None None (row self)) self) w.

(** The filter of [release_expired_locks]:
    [locked_by__isnull=False, locked_at__lt=expiration_time]. A NULL
    [locked_at] compares as unknown and is not selected. *)
Definition lock_expired (expiration_time : Z) (r : Row) : bool :=
  match locked_by r, locked_at r with
  | Some _, Some locked => locked <? expiration_time
  | _, _ => false
  end.

(** The task [release_expired_locks]: a queryset [update], which sends no
    signal and calls no [save]; the number of rows updated stands for the
    message returned. *)
Definition release_expired_locks (now : Z) (w : World) : nat * World :=
  let expiration_time := now - Datetime.of_hours 12 in
  let count :=
    length (List.filter (fun kr => lock_expired expiration_time (snd kr))
              (map_to_list (applications w))) in
  (count,
   with_applications
     ((fun r => if lock_expired expiration_time r then set_lock None None r else r)
        <$> applications w) w).

End Locks.

(** * The validator of the sample code *)

Module Validators.

Inductive validation : Type :=
| valid
| ValidationError (forbidden_chars : string).

(** [char in value] for a one-character string. *)
Definition contains (char : ascii) (value : string) : bool :=
  existsb (Ascii.eqb char) (list_ascii_of_string value).

Definition forbidden_chars : string := "\/|".

(** [validate_forbidden_chars]. The three characters are ASCII, so a search
    among the bytes of a UTF-8 string finds what a search among its
    characters finds. *)
Definition validate_forbidden_chars (value : string) : validation :=
  if existsb (fun char => contains char value) (list_ascii_of_string forbidden_chars)
  then ValidationError forbidden_chars
  else valid.

End Validators.

(** * Properties *)

(** ** Probe processing status *)

Module ProcStatusFacts.
Import ProcStatus.

Lemma matches_true (x : option string) (v : string) :
  matches x v = true <-> x = Some v.
Proof.
  destruct x as [s|]; simpl.
  - rewrite String.eqb_eq. split; congruence.
  - split; discriminate.
Qed.

Lemma matches_false (x : option string) (v : string) :
  matches x v = false <-> x <> Some v.
Proof.
  rewrite <- matches_true. destruct (matches x v); split; congruence.
Qed.

(** Decide every test [matches x c] in the goal, replacing [x] when one
    succeeds. *)
Ltac split_matches x :=
  repeat match goal with
    | |- context [matches x ?c] =>
        let E := fresh "E" in
        destruct (matches x c) eqn:E;
        [ apply matches_true in E; subst x; simpl | apply matches_false in E ]
    end.

Lemma reduced_cases (x : option string) :
  get_reduced_value x = x
  \/ get_reduced_value x = Some SC_R
  \/ get_reduced_value x = Some PW_R.
Proof.
  unfold get_reduced_value.
  destruct (matches x SC_NR); [auto|].
  destruct (matches x PW_NR); [auto|].
  destruct (matches x RE_R); auto.
Qed.

(** C8. Reduction is idempotent; posting leaves every status outside
    {SC_R, PW_R} as it is; [need_to_post] holds exactly on {SC_R, PW_R}. *)
Theorem proc_status_transitions (x : option string) :
  get_reduced_value (get_reduced_value x) = get_reduced_value x
  /\ (x <> Some SC_R -> x <> Some PW_R -> get_posted_value x = x)
  /\ (need_to_post x = true <-> x = Some SC_R \/ x = Some PW_R).
Proof.
  split; [|split].
  - destruct (reduced_cases x) as [H | [H | H]]; rewrite H; try reflexivity.
    exact H.
  - intros H1 H2. unfold get_posted_value.
    apply matches_false in H1, H2. rewrite H1, H2. reflexivity.
  - unfold need_to_post. split.
    + split_matches x; auto. discriminate.
    + intros [-> | ->]; reflexivity.
Qed.

(** The second part of C8 at the status SC_NR. *)
Lemma proc_status_transitions_witness :
  get_posted_value (Some SC_NR) = Some SC_NR.
Proof.
  apply (proj1 (proj2 (proc_status_transitions (Some SC_NR)))); discriminate.
Defined.

End ProcStatusFacts.

(** ** Priority *)

Module PriorityFacts.
Import App.

(** C1, as stated, fails: an overdue application that is also ASAP gets
    100, not 101. *)
Lemma overdue_asap_is_100 :
  deadline Samples.overdue_asap = Some 0
  /\ asap_priority Samples.overdue_asap = true
  /\ 0 <= 0
  /\ (priority 0 Samples.overdue_asap == 100 # 1)%Q
  /\ ~ (priority 0 Samples.overdue_asap == 101 # 1)%Q.
Proof.
  repeat split; try reflexivity. discriminate.
Qed.

(** C1, amended. With a deadline that is not after [now], the priority is
    101 when the ASAP flag is off and 100 when it is on. *)
Theorem priority_overdue (now d : Z) (self : Row) :
  deadline self = Some d ->
  d <= now ->
  priority now self = if asap_priority self then (100 # 1)%Q else (101 # 1)%Q.
Proof.
  intros Hd Hle. unfold priority. rewrite Hd.
  destruct (asap_priority self); [reflexivity|].
  destruct (Z.leb_spec (d - now) 0); [reflexivity | lia].
Qed.

Lemma priority_overdue_witness :
  priority 5 (Samples.with_urgency (Some 5) false Samples.blank) = (101 # 1)%Q.
Proof.
  apply (priority_overdue 5 5 (Samples.with_urgency (Some 5) false Samples.blank)).
  - reflexivity.
  - lia.
Defined.

(** The ASAP flag alone decides: 100 whatever the deadline and the time. *)
Lemma priority_asap (now : Z) (self : Row) :
  asap_priority self = true -> priority now self = (100 # 1)%Q.
Proof. intros H. unfold priority. rewrite H. reflexivity. Qed.

End PriorityFacts.

(** ** Quota groups without a meter *)

Module QuotaFacts.
Import Py Quota.

Lemma unmetered_spec (p : option Decimal) :
  unmetered p = true <-> p = None \/ exists d, p = Some d /\ (d == -1 # 1)%Q.
Proof.
  destruct p as [d|]; simpl.
  - rewrite Qeq_bool_iff. split.
    + intros H. right. exists d. auto.
    + intros [H | [d' [H E]]]; [discriminate | congruence].
  - split; auto.
Qed.

(** What [add_time] does to the balance, in every regime. *)
Lemma add_time_balance (time : Decimal) (pk : Z) (g : QuotaGroup) (groups : table) :
  (current_time (snd (fst (add_time time pk g groups)))
   == current_time g + time)%Q.
Proof.
  unfold add_time, decimal_truthy.
  destruct (Qeq_bool time 0) eqn:E; simpl.
  - apply Qeq_bool_iff in E. rewrite E, Qplus_0_r. reflexivity.
  - reflexivity.
Qed.

(** C2, as stated, fails: [add_time] moves the balance of an unlimited
    group. *)
Lemma add_time_changes_unlimited :
  unmetered (period_time Samples.unlimited_group) = true
  /\ (current_time (snd (fst (add_time (4 # 1) 1 Samples.unlimited_group ∅)))
      == 14 # 1)%Q
  /\ ~ (current_time (snd (fst (add_time (4 # 1) 1 Samples.unlimited_group ∅)))
        == current_time Samples.unlimited_group)%Q.
Proof.
  repeat split. discriminate.
Qed.

(** C2, amended. For a group whose [period_time] is NULL or -1,
    [Laboratory.consume_time] and [reset_quota] change nothing, for every
    argument; [add_time] has no such guard and adds its argument to the
    balance. *)
Theorem unmetered_frame (pk : Z) (g : QuotaGroup) (groups : table)
    (l : Labs.Laboratory) (hours time : Decimal) (now : Z) :
  unmetered (period_time g) = true ->
  groups !! pk = Some g ->
  Labs.quota_group l = Some pk ->
  Labs.consume_time l hours groups = groups
  /\ reset_quota now pk g groups = (g, groups)
  /\ (current_time (snd (fst (add_time time pk g groups)))
      == current_time g + time)%Q.
Proof.
  intros Hu Hg Hl. split; [|split].
  - unfold Labs.consume_time, Labs.related_group.
    rewrite Hl, Hg, Hu. reflexivity.
  - unfold reset_quota. unfold unmetered in Hu.
    destruct (period_time g) as [p|]; [|reflexivity].
    rewrite Hu. reflexivity.
  - apply add_time_balance.
Qed.

Lemma unmetered_frame_witness :
  Labs.consume_time (Samples.laboratory (Some 1)) (3 # 1)%Q Samples.exempt_table
  = Samples.exempt_table
  /\ reset_quota 7 1 Samples.exempt_group Samples.exempt_table
     = (Samples.exempt_group, Samples.exempt_table)
  /\ (current_time
        (snd (fst (add_time (4 # 1) 1 Samples.exempt_group Samples.exempt_table)))
      == current_time Samples.exempt_group + (4 # 1))%Q.
Proof.
  apply (unmetered_frame 1 Samples.exempt_group Samples.exempt_table
           (Samples.laboratory (Some 1)) (3 # 1)%Q (4 # 1)%Q 7).
  - reflexivity.
  - apply lookup_singleton_eq.
  - reflexivity.
Defined.

(** A reset of the metered sample: 10 hours plus 5 per period, capped at 12;
    the instance and its row agree. *)
Example reset_capped :
  let r := reset_quota 7 1 Samples.metered_group Samples.exempt_table in
  (current_time (fst r) == 12 # 1)%Q
  /\ (quota_reset_time (fst r) == 12 # 1)%Q
  /\ last_reset (fst r) = 7
  /\ snd r !! 1 = Some (fst r).
Proof. vm_compute. repeat split. Qed.

End QuotaFacts.

(** ** Transfers of quota time *)

Module TransferFacts.
Import Py Quota Transfer.


Lemma decimal_ltb_ge (a b : Decimal) : decimal_ltb a b = false <-> (b <= a)%Q.
Proof.
  unfold decimal_ltb. rewrite negb_false_iff. apply Qle_bool_iff.
Qed.

(** [add_time] writes the instance it returns under its key and touches no
    other row. *)
Lemma add_time_table (time : Decimal) (pk : Z) (g : QuotaGroup) (gs : table) :
  gs !! pk = Some g ->
  snd (add_time time pk g gs) !! pk = Some (snd (fst (add_time time pk g gs)))
  /\ forall k, k <> pk -> snd (add_time time pk g gs) !! k = gs !! k.
Proof.
  intros Hg. unfold add_time, save.
  destruct (decimal_truthy time); simpl.
  - split; [apply lookup_insert_eq|].
    intros k Hk. apply lookup_insert_ne. congruence.
  - auto.
Qed.


(** The form is clean under the conditions of an acceptance. *)
Lemma full_clean_accepts (dpk apk h m : Z) (d a : QuotaGroup) (gs : table)
    (data : PostData) :
  hours data = Some h -> 0 <= h ->
  minutes data = Some m -> 0 <= m <= 59 ->
  acceptor data = Some apk -> apk <> dpk ->
  gs !! apk = Some a -> is_active a = true ->
  (transfer_amount h m <= current_time d)%Q ->
  full_clean (dpk, d) gs data = (Some (apk, a), transfer_amount h m, []).
Proof.
  intros Hh Hh0 Hm Hm0 Ha Hne Hg Hact Hle.
  unfold full_clean, requested_amount; simpl.
  rewrite Hh, Hm, Ha. simpl. rewrite Hg, Hact.
  destruct (Z.leb_spec 0 h); [|lia].
  destruct (Z.leb_spec 0 m); [|lia].
  destruct (Z.leb_spec m 59); [|lia].
  destruct (Z.eqb_spec apk dpk); [contradiction|].
  simpl.
  apply decimal_ltb_ge in Hle. rewrite Hle.
  destruct (Z.eqb_spec dpk apk); [congruence|].
  reflexivity.
Qed.



(** The ledger of the samples: moving 4 of 10 hours leaves 6 and gives 14,
    with one row recorded; asking for 11 is refused and changes nothing. *)
Example transfer_four_of_ten :
  let r := post 0 7 (Samples.laboratory (Some 1)) (Samples.request 4 2)
             Samples.ledger in
  fst r = redirect_success
  /\ balance_is 1 (6 # 1)%Q (snd r) = true
  /\ balance_is 2 (14 # 1)%Q (snd r) = true
  /\ length (transactions (snd r)) = 1%nat.
Proof. vm_compute. repeat split. Qed.

Example transfer_eleven_of_ten :
  post 0 7 (Samples.laboratory (Some 1)) (Samples.request 11 2) Samples.ledger
  = (form_invalid [not_enough_time], Samples.ledger).
Proof. vm_compute. reflexivity. Qed.

End TransferFacts.

(** ** Time spent *)

Module TimeFacts.
Import Py App.






Example across_midnight :
  compute_time_spent Samples.py Samples.devices Samples.blank
    (value 739000) (value (Samples.at_ 23 0))
    (value 739000) (value (Samples.at_ 1 30))
  = ret (Some (250 # 100)%Q).
Proof. vm_compute. reflexivity. Qed.

Example night_experiment :
  compute_time_spent Samples.py Samples.devices Samples.blank
    (value 739000) (value (Samples.at_ 23 0))
    (value 739001) (value (Samples.at_ 1 30))
  = ret (Some (800 # 100)%Q).
Proof. vm_compute. reflexivity. Qed.

Example empty_text_is_missing :
  compute_time_spent Samples.py Samples.devices Samples.blank
    (value 739000) (text "") (value 739000) (value (Samples.at_ 1 30))
  = ret None.
Proof. reflexivity. Qed.

End TimeFacts.

(** ** Saving an application *)

Module SaveFacts.
Import Py App.

(** The receivers only add to the outbox, or reset quota groups. *)
Lemma status_changed_tables (inst : Instance) (w : World) :
  applications (application_status_changed inst w) = applications w
  /\ quota_groups (application_status_changed inst w) = quota_groups w
  /\ laboratories (application_status_changed inst w) = laboratories w.
Proof.
  unfold application_status_changed.
  repeat match goal with
         | |- context [if ?b then _ else _] => destruct b
         | |- context [match ?o with Some _ => _ | None => _ end] => destruct o
         end; repeat split.
Qed.

Lemma data_status_changed_tables (inst : Instance) (w : World) :
  applications (application_data_status_changed inst w) = applications w
  /\ quota_groups (application_data_status_changed inst w) = quota_groups w.
Proof.
  unfold application_data_status_changed.
  repeat match goal with
         | |- context [if ?b then _ else _] => destruct b
         | |- context [match ?o with Some _ => _ | None => _ end] => destruct o
         end; repeat split.
Qed.

(** When the stored status is the instance's status, the refresh receiver
    does nothing: its condition asks the status to be 'submitted' and not
    to be. *)
Lemma handle_application_time_inert (now k : Z) (inst : Instance) (w : World)
    (stored : Row) :
  applications w !! k = Some stored ->
  status stored = status (row inst) ->
  pk inst = Some k ->
  handle_application_time now inst w = w.
Proof.
  intros Hrow Hst Hpk. unfold handle_application_time, pk_truthy.
  rewrite Hpk. destruct (k =? 0); [reflexivity|].
  rewrite Hrow. unfold previous_status, from_db, init. cbn [_prev_status].
  rewrite Hst, andb_negb_r. reflexivity.
Qed.

(** [Model.save] of every column of an instance that has a key. *)
Lemma model_save_full (now k : Z) (inst : Instance) (w : World) :
  pk inst = Some k ->
  model_save now None inst w
  = ret (inst,
         application_data_status_changed inst
           (with_applications
              (<[k := row inst]> (applications (application_status_changed inst w)))
              (application_status_changed inst w))).
Proof.
  intros Hpk. unfold model_save, save_table. rewrite Hpk.
  cbn [mbind result_bind fst snd].
  rewrite (handle_application_time_inert now k inst _ (row inst));
    [reflexivity | | reflexivity | assumption].
  cbn [applications with_applications]. apply lookup_insert_eq.
Qed.










(** A computed time of zero is not recorded and credits nothing back: the
    test [if time_spent_compute:] treats it as no result. *)
Example zero_time_is_ignored :
  update_time Samples.py
    (from_db 5
       (Samples.with_experiment (value 739000) (value (Samples.at_ 10 0))
          (value 739000) (value (Samples.at_ 10 0)) None
          (set_time_spent (1 # 1)%Q Samples.blank)))
    (Samples.world Samples.three_hours Samples.metered_group)
  = ret (from_db 5
           (Samples.with_experiment (value 739000) (value (Samples.at_ 10 0))
              (value 739000) (value (Samples.at_ 10 0)) None
              (set_time_spent (1 # 1)%Q Samples.blank)),
         Samples.world Samples.three_hours Samples.metered_group).
Proof. vm_compute. reflexivity. Qed.

End SaveFacts.

(** ** Aggregated fields *)

Module AggregateFacts.
Import Py App.

Lemma len_app (a b : string) : len (a ++ b) = (len a + len b)%nat.
Proof.
  induction a as [|c a IH]; simpl; [reflexivity|].
  destruct (is_continuation c); simpl; rewrite IH; reflexivity.
Qed.

(** Joining parts of one code point each gives as many code points as
    there are parts. *)
Lemma len_join_units (parts : list string) :
  Forall (fun s => len s = 1%nat) parts ->
  len (join parts) = length parts.
Proof.
  induction 1 as [|s parts Hs _ IH]; simpl; [reflexivity|].
  rewrite len_app, Hs, IH. reflexivity.
Qed.

Lemma len_spade : len spade = 1%nat.
Proof. reflexivity. Qed.

Lemma by_number_total : Total by_number.
Proof. intros p q. unfold by_number. lia. Qed.

(** The probes are taken in the order of their numbers, each once. *)
Lemma probes_of_sorted (k : Z) (w : World) :
  Sorted by_number (probes_of k w)
  /\ probes_of k w
     ≡ₚ List.filter (probe_of k) (List.map snd (map_to_list (probes w))).
Proof.
  split.
  - apply (@Sorted_merge_sort _ by_number _ by_number_total).
  - apply merge_sort_Permutation.
Qed.

(** The refresh receiver leaves the applications alone. *)
Lemma handle_application_time_applications (now : Z) (inst : Instance) (w : World) :
  applications (handle_application_time now inst w) = applications w.
Proof.
  unfold handle_application_time.
  destruct (pk_truthy inst); [|reflexivity].
  destruct (applications w !! z); [|reflexivity].
  destruct (_ && _); [|reflexivity].
  destruct (check_if_period_needs_refresh w); reflexivity.
Qed.

(** One code point per probe, when each status is at most one. *)
Lemma proc_status_units (ps : list Probe) :
  (forall p s, In p ps -> proc_status p = Some s -> s <> "" -> len s = 1%nat) ->
  Forall (fun s => len s = 1%nat) (List.map (fun p => safe_str (proc_status p)) ps).
Proof.
  intros H. apply List.Forall_forall. intros s Hs.
  apply in_map_iff in Hs as [p [<- Hp]].
  unfold safe_str. destruct (proc_status p) as [t|] eqn:E; [|apply len_spade].
  destruct t as [|c t]; [apply len_spade|].
  cbn [str_truthy]. apply (H p _ Hp E). discriminate.
Qed.

(** C5, as stated, fails: a probe of sample type 'MC' puts two characters
    into [smpl_type_application] for a count of one. *)
Lemma smpl_type_longer_than_count :
  exists (self' : Instance) (w' : World),
    update_aggregated_fields Samples.py 0 (from_db 5 Samples.blank) Samples.one_probe
    = ret (self', w')
    /\ probe_count (row self') = 1%nat
    /\ smpl_type_application (row self') = "MC"
    /\ len (smpl_type_application (row self')) = 2%nat
    /\ len (smpl_type_application (row self')) <> probe_count (row self').
Proof.
  eexists _, _. split; [vm_compute; reflexivity|].
  repeat split. discriminate.
Qed.

(** C5, amended. Rebuilding the aggregates of a stored application returns;
    the probes are taken in the order of their numbers; [probe_count] is
    their number; each of the four strings is the concatenation, in that
    order, of the probe's value or of the sentinel when the value is falsy;
    the five columns are those stored; and [proc_status_application] has as
    many characters as there are probes when every status has at most one. *)
Theorem aggregates_rebuilt (py : PyLib) (now k : Z) (self : Instance) (w : World)
    (stored : Row) :
  pk self = Some k ->
  applications w !! k = Some stored ->
  exists (self' : Instance) (w' : World) (stored' : Row),
    update_aggregated_fields py now self w = ret (self', w')
    /\ Sorted by_number (probes_of k w)
    /\ probes_of k w
       ≡ₚ List.filter (probe_of k) (List.map snd (map_to_list (probes w)))
    /\ row self' = aggregate py (probes_of k w) (row self)
    /\ probe_count (row self') = length (probes_of k w)
    /\ proc_status_application (row self')
       = join (List.map (fun p => safe_str (proc_status p)) (probes_of k w))
    /\ smpl_type_application (row self')
       = join (List.map (fun p => safe_str (smpl_type p)) (probes_of k w))
    /\ data_quantity_application (row self')
       = join (List.map (fun p => safe_str (data_quantity p)) (probes_of k w))
    /\ dmin_application (row self')
       = join (List.map (fun p => safe_str_decimal py (dmin p)) (probes_of k w))
    /\ applications w' !! k = Some stored'
    /\ probe_count stored' = probe_count (row self')
    /\ proc_status_application stored' = proc_status_application (row self')
    /\ smpl_type_application stored' = smpl_type_application (row self')
    /\ data_quantity_application stored' = data_quantity_application (row self')
    /\ dmin_application stored' = dmin_application (row self')
    /\ ((forall p s, In p (probes_of k w) -> proc_status p = Some s ->
                     s <> "" -> len s = 1%nat) ->
        len (proc_status_application (row self')) = probe_count (row self')).
Proof.
  intros Hpk Hrow.
  destruct (probes_of_sorted k w) as [Hsorted Hperm].
  unfold update_aggregated_fields. rewrite Hpk.
  unfold model_save, save_table. cbn [aggregated_columns pk with_row].
  rewrite Hpk, (proj1 (SaveFacts.status_changed_tables _ _)), Hrow.
  cbn [mbind result_bind fst snd].
  eexists _, _, _. split; [reflexivity|].
  rewrite (proj1 (SaveFacts.data_status_changed_tables _ _)),
    handle_application_time_applications.
  cbn [applications with_applications row with_row].
  split; [exact Hsorted|]. split; [exact Hperm|].
  repeat (split; [reflexivity|]).
  split; [apply lookup_insert_eq|].
  repeat (split; [reflexivity|]).
  intros Hunits. cbn.
  rewrite len_join_units by (apply proc_status_units, Hunits).
  apply length_map.
Qed.

(** C5 on three probes with statuses '<', None, '>': the string is "<♠>",
    three characters for three probes. *)
Lemma aggregates_rebuilt_witness :
  exists (self' : Instance) (w' : World),
    update_aggregated_fields Samples.py 0 (from_db 5 Samples.blank)
      Samples.three_probes = ret (self', w')
    /\ proc_status_application (row self') = "<♠>"
    /\ probe_count (row self') = 3%nat
    /\ len (proc_status_application (row self')) = probe_count (row self').
Proof.
  destruct (aggregates_rebuilt Samples.py 0 5 (from_db 5 Samples.blank)
              Samples.three_probes Samples.blank eq_refl eq_refl)
    as (self' & w' & stored' & Hret & _ & _ & _ & Hcount & Hproc & _).
  exists self', w'. split; [exact Hret|].
  rewrite Hproc, Hcount. vm_compute. repeat split.
Defined.

End AggregateFacts.

(** ** The processing lock *)

Module LockFacts.
Import Py App ProcessView.

(** An instance whose status is the one it was built with sends no status
    mail. *)
Lemma status_changed_inert (inst : Instance) (w : World) :
  previous_status inst = status (row inst) ->
  application_status_changed inst w = w.
Proof.
  intros H. unfold application_status_changed. rewrite H.
  destruct (String.eqb (status (row inst)) "completed");
    [destruct (pk_truthy inst); reflexivity|].
  destruct (String.eqb (status (row inst)) "rejected");
    [destruct (pk_truthy inst); reflexivity|].
  reflexivity.
Qed.

(** An instance whose previous data status is its data status sends no data
    mail. *)
Lemma data_status_changed_inert (inst : Instance) (w : World) :
  prev_data_status (row inst) = data_status (row inst) ->
  application_data_status_changed inst w = w.
Proof.
  intros H. unfold application_data_status_changed. rewrite H.
  destruct (String.eqb (data_status (row inst)) "DATA_SENT");
    [destruct (pk_truthy inst); reflexivity|].
  reflexivity.
Qed.

(** An UPDATE of the two lock columns. *)
Lemma merge_lock (src old : Row) :
  merge (fun c => bool_decide (c ∈ lock_columns)) src old
  = set_lock (locked_by src) (locked_at src) old.
Proof. reflexivity. Qed.

(** Taking the lock on a stored application changes the two lock columns of
    its row and nothing else. *)
Lemma acquire_spec (py : PyLib) (stamp u k : Z) (r : Row) (w : World) :
  k <> 0 ->
  applications w !! k = Some r ->
  acquire py stamp u (from_db k r) w
  = (proceed,
     with_applications
       (<[k := set_lock (Some u) (Some stamp) r]> (applications w)) w).
Proof.
  intros Hk Hrow. unfold acquire, save.
  assert (Hp : pk_truthy (with_row (set_lock (Some u) (Some stamp) (row (from_db k r)))
                            (from_db k r)) = Some k).
  { unfold pk_truthy. cbn. destruct (Z.eqb_spec k 0); congruence. }
  rewrite Hp. cbn [mbind result_bind fst snd lock_columns]. rewrite Hrow.
  cbn [mbind result_bind fst snd].
  unfold model_save.
  rewrite status_changed_inert by reflexivity.
  unfold save_table. cbn [pk with_row from_db init]. rewrite Hrow.
  cbn [mbind result_bind fst snd].
  rewrite data_status_changed_inert by reflexivity.
  rewrite (SaveFacts.handle_application_time_inert stamp k _ _
             (set_lock (Some u) (Some stamp) r));
    [reflexivity | apply lookup_insert_eq | reflexivity | reflexivity].
Qed.



(** One hour after the first operator took the lock the second is refused;
    three hours after, the second takes it over. *)
Example refused_within_cooldown :
  dispatch Samples.py (Samples.clock 1) (Some 2) 5 Samples.locked_world
  = (permission_denied (conflict_prefix ++ "Ivanov Ivan")%string,
     Samples.locked_world).
Proof. vm_compute. reflexivity. Qed.

Example taken_over_after_cooldown :
  dispatch Samples.py (Samples.clock 3) (Some 2) 5 Samples.locked_world
  = (proceed,
     locked_for 2 (Datetime.of_hours 3) 5 Samples.held Samples.locked_world).
Proof. vm_compute. reflexivity. Qed.

End LockFacts.

(** ** Gated actions *)

Module NotificationFacts.
Import Notification.

(** Filtering keeps nothing when no element passes. *)
Lemma filter_none {A} (f : A -> bool) (l : list A) :
  (forall x, In x l -> f x = false) -> List.filter f l = [].
Proof.
  induction l as [|a l IH]; intros H; simpl; [reflexivity|].
  rewrite (H a) by (left; reflexivity).
  apply IH. intros x Hx. apply H. right. exact Hx.
Qed.

(** C10. When no relation of the issue is active, [is_action_allowed] is true
    and [try_action] is the handler dispatch itself: the mapping lookup, the
    attribute lookup and the call, with no approval in between. *)
Theorem ungated_issue_allowed (attrs : attributes) (issue_pk : Z)
    (self : NotificationIssue) (w : World) :
  (forall (i : Z) (r : NotificationRelations),
      relations w !! i = Some r -> issue r = issue_pk -> is_active r = false) ->
  active_relations issue_pk w = []
  /\ is_action_allowed issue_pk w = true
  /\ try_action attrs issue_pk self w = run_handler attrs self.
Proof.
  intros H.
  assert (Hnone : active_relations issue_pk w = []).
  { unfold active_relations. apply filter_none. intros [i r] Hin.
    apply list_elem_of_In, elem_of_map_to_list in Hin. cbn [fst snd].
    destruct (Z.eqb_spec (issue r) issue_pk) as [E|]; [|reflexivity].
    rewrite (H i r Hin E). reflexivity. }
  split; [exact Hnone|].
  assert (Hok : is_action_allowed issue_pk w = true).
  { unfold is_action_allowed. rewrite Hnone. reflexivity. }
  split; [exact Hok|].
  unfold try_action. rewrite Hok. reflexivity.
Qed.

Lemma ungated_issue_allowed_witness :
  active_relations 9 Samples.switched_off = []
  /\ is_action_allowed 9 Samples.switched_off = true
  /\ try_action Samples.handlers 9 Samples.issue Samples.switched_off
     = run_handler Samples.handlers Samples.issue.
Proof.
  apply (ungated_issue_allowed Samples.handlers 9 Samples.issue Samples.switched_off).
  intros i r Hr Hi. unfold Samples.switched_off, relations in Hr.
  apply lookup_singleton_Some in Hr as [_ <-]. reflexivity.
Defined.

(** With a handler for the mapped method the ungated issue runs; with the
    class as the source has it the dispatch finds no method and reports
    failure. *)
Example ungated_runs :
  try_action Samples.handlers 9 Samples.issue Samples.switched_off = (true, []).
Proof. vm_compute. reflexivity. Qed.

Example ungated_without_method :
  try_action class_attributes 9 Samples.issue Samples.switched_off
  = (false, [not_implemented "dummymethod1"]).
Proof. vm_compute. reflexivity. Qed.

End NotificationFacts.

(** ** Mail on status changes *)

Module MailFacts.
Import Py App.

(** C9 fails on the code. An application whose data status already is
    'DATA_SENT', in the row and in the instance loaded from it, has its
    aggregates rebuilt (as after any save of one of its probes): the data
    status stays 'DATA_SENT' and the data mail is sent once more. The rebuild
    calls [Model.save] directly, so the receiver compares with the previous
    data status stored by the last full save. *)
Theorem data_mail_sent_again :
  exists (self' : Instance) (w' : World),
    update_aggregated_fields Samples.py 0 (from_db 5 Samples.sent)
      (Samples.archive Samples.sent) = ret (self', w')
    /\ data_status <$> applications (Samples.archive Samples.sent) !! 5
       = Some "DATA_SENT"
    /\ data_status (row (from_db 5 Samples.sent)) = "DATA_SENT"
    /\ data_status <$> applications w' !! 5 = Some "DATA_SENT"
    /\ data_status (row self') = "DATA_SENT"
    /\ outbox (Samples.archive Samples.sent) = []
    /\ outbox w' = [data_published_email 5].
Proof.
  eexists _, _. split; [vm_compute; reflexivity|].
  repeat split.
Qed.

(** The sequence of the processing view, [self.object.save()] and then
    [self.object.update_aggregated_fields()], on the step from
    'DATA_REDUCED' to 'DATA_SENT': two data mails for one change. *)
Example data_mail_sent_twice :
  (sw ← save Samples.py 0 None
          (with_row (set_data_status "DATA_SENT" Samples.reduced)
             (from_db 5 Samples.reduced))
          (Samples.archive Samples.reduced);
   sw ← update_aggregated_fields Samples.py 0 (fst sw) (snd sw);
   ret (outbox (snd sw)))
  = ret [data_published_email 5; data_published_email 5].
Proof. vm_compute. reflexivity. Qed.

(** Saving a completed application again, as loaded, sends nothing. *)
Example completed_saved_again :
  (sw ← save Samples.py 0 None (from_db 5 Samples.sent)
          (Samples.archive Samples.sent);
   ret (outbox (snd sw)))
  = ret [].
Proof. vm_compute. reflexivity. Qed.

(** The step from 'submitted' to 'completed' sends the completion mail
    once, followed by the plot refresh. *)
Example completed_mail_once :
  (sw ← save Samples.py 0 None
          (with_row (set_status "completed" Samples.blank)
             (from_db 5 Samples.blank))
          (Samples.archive Samples.blank);
   sw ← save Samples.py 0 None (fst sw) (snd sw);
   ret (outbox (snd sw)))
  = ret [completed_email 5; plot_quota_time].
Proof. vm_compute. reflexivity. Qed.

End MailFacts.

(** * Further properties *)

(** ** Status sets *)

Module StatusSetFacts.
Import ProcStatus ProbeStatuses.

Lemma member_true (x : option string) (l : list string) :
  member x l = true <-> exists v, In v l /\ x = Some v.
Proof.
  unfold member. rewrite existsb_exists. split.
  - intros [v [Hv Hm]]. exists v. split; [exact Hv|].
    apply ProcStatusFacts.matches_true. exact Hm.
  - intros [v [Hv ->]]. exists v. split; [exact Hv|].
    apply ProcStatusFacts.matches_true. reflexivity.
Qed.


(** X2. Posting changes a status exactly when [need_to_post] holds, which is
    exactly membership in the statuses that need sending; the result is then
    a sent status, and no result of posting needs posting. *)
Theorem posted_changes_iff_needed (x : option string) :
  (get_posted_value x <> x <-> need_to_post x = true)
  /\ need_to_post x = member x get_need_send_statuses
  /\ (need_to_post x = true -> member (get_posted_value x) get_sent_statuses = true)
  /\ need_to_post (get_posted_value x) = false.
Proof.
  unfold get_posted_value, need_to_post, member, get_need_send_statuses,
    get_sent_statuses. cbn [existsb].
  destruct (matches x SC_R) eqn:E1;
    [apply ProcStatusFacts.matches_true in E1; subst x;
     repeat split; try reflexivity; discriminate|].
  destruct (matches x PW_R) eqn:E2;
    [apply ProcStatusFacts.matches_true in E2; subst x;
     repeat split; try reflexivity; discriminate|].
  rewrite E1, E2. repeat split; try reflexivity; try discriminate.
  intros H; contradiction.
Qed.

(** X3. A probe can be attached to a publication exactly when its status is
    SC_RS, PW_RS or LP; in particular after posting a status that needed it,
    and never while the status needs reduction or sending. *)
Theorem attachable_statuses (x : option string) :
  (publication_attachable x = true
   <-> x = Some SC_RS \/ x = Some PW_RS \/ x = Some LP)
  /\ (need_to_post x = true -> publication_attachable (get_posted_value x) = true)
  /\ (member x get_need_reduction_statuses = true
      \/ member x get_need_send_statuses = true ->
      publication_attachable x = false).
Proof.
  split; [|split].
  - unfold publication_attachable, can_be_published. cbn [existsb].
    rewrite orb_false_r, !orb_true_iff, !ProcStatusFacts.matches_true. tauto.
  - unfold need_to_post. intros H.
    destruct (matches x SC_R) eqn:E1;
      [apply ProcStatusFacts.matches_true in E1; subst x; reflexivity|].
    destruct (matches x PW_R) eqn:E2;
      [apply ProcStatusFacts.matches_true in E2; subst x; reflexivity|].
    discriminate H.
  - intros [H | H]; apply member_true in H as [v [Hv ->]]; simpl in Hv;
      repeat (destruct Hv as [<- | Hv]; [reflexivity|]); contradiction.
Qed.

End StatusSetFacts.

(** ** The data status derived from probe statuses *)

Module DataStatusFacts.
Import ProcStatus ProbeStatuses.

Lemma member_app (x : option string) (a b : list string) :
  member x (a ++ b) = member x a || member x b.
Proof. unfold member. apply existsb_app. Qed.

(** No probe carries data exactly when no probe is in one of the three sets. *)
Lemma no_data_flag_spec (l : list (option string)) :
  forallb
    (fun s => negb (member s (get_need_reduction_statuses
                              ++ get_need_send_statuses ++ get_sent_statuses)))
    l
  = negb (existsb (fun s => member s get_need_reduction_statuses) l
          || existsb (fun s => member s get_need_send_statuses) l
          || existsb (fun s => member s get_sent_statuses) l).
Proof.
  induction l as [|s l IH]; [reflexivity|].
  cbn [forallb existsb]. rewrite IH, !member_app.
  destruct (member s get_need_reduction_statuses),
    (member s get_need_send_statuses), (member s get_sent_statuses),
    (existsb (fun s => member s get_need_reduction_statuses) l),
    (existsb (fun s => member s get_need_send_statuses) l),
    (existsb (fun s => member s get_sent_statuses) l); reflexivity.
Qed.

(** The chain of tests, by the three flags it reads. *)
Lemma data_status_chain (l : list (option string)) (current : string) :
  data_status_for l current
  = if existsb (fun s => member s get_need_reduction_statuses) l
    then "NEED_REDUCTION"
    else if existsb (fun s => member s get_need_send_statuses) l
         then "DATA_REDUCED"
    else if existsb (fun s => member s get_sent_statuses) l then "DATA_SENT"
    else "NO_DATA".
Proof.
  unfold data_status_for. cbv zeta. rewrite no_data_flag_spec.
  destruct (existsb (fun s => member s get_need_reduction_statuses) l),
    (existsb (fun s => member s get_need_send_statuses) l),
    (existsb (fun s => member s get_sent_statuses) l); reflexivity.
Qed.

(** X4. The chain of tests in the processing view always assigns: the value
    the instance had is never kept, so the result does not depend on it. The
    result is 'NEED_REDUCTION' when some probe needs reduction; otherwise
    'DATA_REDUCED' when some probe needs sending; otherwise 'DATA_SENT' when
    some probe was sent; otherwise 'NO_DATA'. *)
Theorem data_status_precedence (l : list (option string)) (current : string) :
  data_status_for l current
  = (if existsb (fun s => member s get_need_reduction_statuses) l
     then "NEED_REDUCTION"
     else if existsb (fun s => member s get_need_send_statuses) l
          then "DATA_REDUCED"
     else if existsb (fun s => member s get_sent_statuses) l then "DATA_SENT"
     else "NO_DATA")
  /\ forall other : string, data_status_for l other = data_status_for l current.
Proof.
  split.
  - apply data_status_chain.
  - intros other. rewrite !data_status_chain. reflexivity.
Qed.

Lemma existsb_map {A B} (f : B -> bool) (g : A -> B) (l : list A) :
  existsb f (List.map g l) = existsb (fun a => f (g a)) l.
Proof. induction l as [|a l IH]; simpl; [|rewrite IH]; reflexivity. Qed.

Lemma existsb_false {A} (f : A -> bool) (l : list A) :
  (forall a, f a = false) -> existsb f l = false.
Proof.
  intros H. induction l as [|a l IH]; simpl; [|rewrite H, IH]; reflexivity.
Qed.

Lemma reduced_never_needs_reduction (x : option string) :
  member (get_reduced_value x) get_need_reduction_statuses = false.
Proof.
  unfold get_reduced_value, member, get_need_reduction_statuses. cbn [existsb].
  destruct (matches x SC_NR) eqn:E1; [reflexivity|].
  destruct (matches x PW_NR) eqn:E2; [reflexivity|].
  destruct (matches x RE_R) eqn:E3; [reflexivity|].
  rewrite E1, E2, E3. reflexivity.
Qed.

Lemma posted_never_needs_sending (x : option string) :
  member (get_posted_value x) get_need_send_statuses = false.
Proof.
  unfold get_posted_value, member, get_need_send_statuses. cbn [existsb].
  destruct (matches x SC_R) eqn:E1; [reflexivity|].
  destruct (matches x PW_R) eqn:E2; [reflexivity|].
  rewrite E1, E2. reflexivity.
Qed.

(** X5. Once every probe status has gone through [get_reduced_value] the
    derived data status is never 'NEED_REDUCTION', and once every status has
    also gone through [get_posted_value] it is 'DATA_SENT' or 'NO_DATA'. *)
Theorem data_status_after_transitions (l : list (option string)) (current : string) :
  data_status_for (List.map get_reduced_value l) current <> "NEED_REDUCTION"
  /\ (data_status_for
        (List.map (fun s => get_posted_value (get_reduced_value s)) l) current
      = "DATA_SENT"
      \/ data_status_for
           (List.map (fun s => get_posted_value (get_reduced_value s)) l) current
         = "NO_DATA").
Proof.
  rewrite !data_status_chain, !existsb_map. split.
  - rewrite (existsb_false _ l)
      by (intros a; apply reduced_never_needs_reduction).
    destruct (existsb _ l); [discriminate|].
    destruct (existsb _ l); discriminate.
  - assert (Hred : forall a,
               member (get_posted_value (get_reduced_value a))
                 get_need_reduction_statuses = false).
    { intros a.
      destruct (ProcStatusFacts.reduced_cases a) as [H | [H | H]]; rewrite H;
        try reflexivity.
      unfold get_posted_value.
      destruct (matches a SC_R); [reflexivity|].
      destruct (matches a PW_R); [reflexivity|].
      pose proof (reduced_never_needs_reduction a) as Hn.
      rewrite H in Hn. exact Hn. }
    assert (Hsend : forall a,
               member (get_posted_value (get_reduced_value a))
                 get_need_send_statuses = false).
    { intros a. apply posted_never_needs_sending. }
    rewrite (existsb_false _ l Hred), (existsb_false _ l Hsend).
    destruct (existsb _ l); auto.
Qed.

End DataStatusFacts.

(** ** Quota groups: resets, round trips, availability *)

Module QuotaMoreFacts.
Import Py Quota Refresh.

Lemma reset_quota_shape (now pk : Z) (g : QuotaGroup) (gs : table) :
  gs !! pk = Some g ->
  fst (reset_quota now pk g gs) = reset_row now g
  /\ snd (reset_quota now pk g gs) = <[pk := reset_row now g]> gs.
Proof.
  intros Hg. unfold reset_row, reset_quota, save.
  destruct (period_time g) as [p|]; cbn [fst snd];
    [destruct (Qeq_bool p (-1 # 1)); cbn [fst snd]|];
    (split; [reflexivity|]); try reflexivity;
    symmetry; apply insert_id; exact Hg.
Qed.



(** X7. Subtracting an amount and adding it back restores the balance: the
    stored row is the instance returned, its balance equals the one before,
    and no other row changes. *)
Theorem subtract_then_add (t : Decimal) (pk : Z) (g : QuotaGroup) (gs : table) :
  gs !! pk = Some g ->
  let '(_, g1, gs1) := subtract_time t pk g gs in
  let '(_, g2, gs2) := add_time t pk g1 gs1 in
  gs2 !! pk = Some g2
  /\ (current_time g2 == current_time g)%Q
  /\ (forall k, k <> pk -> gs2 !! k = gs !! k).
Proof.
  intros Hg. unfold subtract_time.
  destruct (TransferFacts.add_time_table (- t)%Q pk g gs Hg) as [H1 O1].
  pose proof (QuotaFacts.add_time_balance (- t)%Q pk g gs) as B1.
  destruct (add_time (- t)%Q pk g gs) as [[r1 g1] gs1]. cbn [fst snd] in H1, O1, B1.
  destruct (TransferFacts.add_time_table t pk g1 gs1 H1) as [H2 O2].
  pose proof (QuotaFacts.add_time_balance t pk g1 gs1) as B2.
  destruct (add_time t pk g1 gs1) as [[r2 g2] gs2]. cbn [fst snd] in H2, O2, B2.
  split; [exact H2|]. split.
  - rewrite B2, B1. ring.
  - intros k Hk. rewrite O2, O1 by exact Hk. reflexivity.
Qed.

Lemma subtract_then_add_witness :
  let '(_, g1, gs1) :=
    subtract_time (4 # 1)%Q 1 Samples.exempt_group Samples.exempt_table in
  let '(_, g2, gs2) := add_time (4 # 1)%Q 1 g1 gs1 in
  gs2 !! 1 = Some g2
  /\ (current_time g2 == current_time Samples.exempt_group)%Q
  /\ (forall k, k <> 1 -> gs2 !! k = Samples.exempt_table !! k).
Proof.
  apply (subtract_then_add (4 # 1)%Q 1 Samples.exempt_group Samples.exempt_table).
  reflexivity.
Defined.

End QuotaMoreFacts.

(** ** Availability and the periodic refresh *)

Module RefreshFacts.
Import Py Refresh.

(** X8. What a laboratory has available: the sentinel 999999 without a quota
    group or with an unlimited or exempt one, before and after any
    consumption; with a metered group the group's balance, which a
    consumption of [hours] lowers by [hours]. *)
Theorem available_after_consume (l : Labs.Laboratory) (hours : Decimal)
    (gs : Quota.table) :
  match Labs.related_group l gs with
  | None =>
      Labs.get_available_time l gs = Labs.unlimited
      /\ Labs.get_available_time l (Labs.consume_time l hours gs) = Labs.unlimited
  | Some (_, g) =>
      if Quota.unmetered (Quota.period_time g) then
        Labs.get_available_time l gs = Labs.unlimited
        /\ Labs.get_available_time l (Labs.consume_time l hours gs)
           = Labs.unlimited
      else
        Labs.get_available_time l gs = Quota.current_time g
        /\ (Labs.get_available_time l (Labs.consume_time l hours gs)
            == Quota.current_time g - hours)%Q
  end.
Proof.
  unfold Labs.get_available_time, Labs.consume_time.
  destruct (Labs.related_group l gs) as [[gpk g]|] eqn:Hrel.
  - destruct (Quota.unmetered (Quota.period_time g)) eqn:Hu.
    + rewrite Hrel. unfold Quota.unmetered in Hu.
      destruct (Quota.period_time g) as [p|]; [rewrite Hu|]; auto.
    + assert (Hq : Labs.quota_group l = Some gpk).
      { unfold Labs.related_group in Hrel.
        destruct (Labs.quota_group l) as [k|]; [|discriminate].
        destruct (gs !! k); [|discriminate]. congruence. }
      unfold Labs.related_group. rewrite Hq. unfold Quota.save.
      rewrite lookup_insert_eq. cbn [Quota.period_time Quota.set_current_time
                                      Quota.current_time].
      unfold Quota.unmetered in Hu.
      destruct (Quota.period_time g) as [p|]; [|discriminate].
      rewrite Hu. split; reflexivity.
  - rewrite Hrel. auto.
Qed.

(** One step of the refresh loop on a row the table holds. *)
Lemma refresh_step (now k : Z) (g : Quota.QuotaGroup) (gs : Quota.table) :
  gs !! k = Some g ->
  snd (Quota.reset_quota now k g gs) = <[k := reset_row now g]> gs.
Proof. intros H. apply QuotaMoreFacts.reset_quota_shape. exact H. Qed.

(** The loop over rows with distinct keys, each still as the table holds it. *)
Lemma refresh_loop (now : Z) (l : list (Z * Quota.QuotaGroup)) (gs : Quota.table) :
  NoDup (List.map fst l) ->
  (forall k g, In (k, g) l -> gs !! k = Some g) ->
  forall k,
    fold_left (fun acc kg => snd (Quota.reset_quota now (fst kg) (snd kg) acc)) l gs
    !! k
    = match List.find (fun kg => fst kg =? k) l with
      | Some kg => Some (reset_row now (snd kg))
      | None => gs !! k
      end.
Proof.
  revert gs. induction l as [|[k0 g0] l IH]; intros gs Hnd Hin k; [reflexivity|].
  cbn [fold_left fst snd List.find List.map] in *.
  apply NoDup_cons in Hnd as [Hk0 Hnd].
  rewrite (refresh_step now k0 g0 gs) by (apply Hin; left; reflexivity).
  rewrite IH; [| exact Hnd |].
  - destruct (Z.eqb_spec k0 k) as [->|Hne].
    + destruct (List.find (fun kg => fst kg =? k) l) as [[k1 g1]|] eqn:Hf.
      * exfalso. apply find_some in Hf as [Hin1 Heq]. cbn [fst] in Heq.
        apply Z.eqb_eq in Heq. subst k1. apply Hk0.
        apply list_elem_of_In, in_map_iff. exists (k, g1). auto.
      * apply lookup_insert_eq.
    + destruct (List.find (fun kg => fst kg =? k) l); [reflexivity|].
      apply lookup_insert_ne. exact Hne.
  - intros k1 g1 Hin1. rewrite lookup_insert_ne.
    + apply Hin. right. exact Hin1.
    + intros ->. apply Hk0. apply list_elem_of_In, in_map_iff.
      exists (k1, g1). auto.
Qed.

Lemma NoDup_fst_filter {A} (f : Z * A -> bool) (l : list (Z * A)) :
  NoDup (List.map fst l) -> NoDup (List.map fst (List.filter f l)).
Proof.
  induction l as [|a l IH]; intros H; [exact H|].
  cbn [List.map List.filter] in *. apply NoDup_cons in H as [Ha H].
  destruct (f a); [|apply IH; exact H].
  cbn [List.map]. apply NoDup_cons. split; [|apply IH; exact H].
  intros Hin. apply Ha. apply list_elem_of_In in Hin. apply list_elem_of_In.
  apply in_map_iff in Hin as [x [Hx Hin]]. apply filter_In in Hin as [Hin _].
  apply in_map_iff. exists x. auto.
Qed.

(** Looking a key up among the selected rows of a table. *)
Lemma find_selected {A} (f : Z * A -> bool) (m : gmap Z A) (k : Z) :
  List.find (fun kg => fst kg =? k) (List.filter f (map_to_list m))
  = match m !! k with
    | Some a => if f (k, a) then Some (k, a) else None
    | None => None
    end.
Proof.
  destruct (List.find (fun kg => fst kg =? k) (List.filter f (map_to_list m)))
    as [[k1 a1]|] eqn:Hf.
  - apply find_some in Hf as [Hin Hk]. cbn [fst] in Hk. apply Z.eqb_eq in Hk.
    subst k1. apply filter_In in Hin as [Hin Hfa].
    apply list_elem_of_In, elem_of_map_to_list in Hin. rewrite Hin, Hfa.
    reflexivity.
  - destruct (m !! k) as [a|] eqn:Hm; [|reflexivity].
    destruct (f (k, a)) eqn:Hfa; [|reflexivity].
    exfalso.
    assert (Hin : In (k, a) (List.filter f (map_to_list m))).
    { apply filter_In. split; [|exact Hfa].
      apply list_elem_of_In, elem_of_map_to_list. exact Hm. }
    pose proof (find_none _ _ Hf _ Hin) as Hk. cbn [fst] in Hk.
    rewrite Z.eqb_refl in Hk. discriminate Hk.
Qed.

Lemma reset_row_unmetered (now : Z) (g : Quota.QuotaGroup) :
  Quota.unmetered (Quota.period_time g) = true -> reset_row now g = g.
Proof.
  unfold reset_row, Quota.reset_quota, Quota.unmetered.
  destruct (Quota.period_time g) as [p|]; [|reflexivity].
  intros ->. reflexivity.
Qed.

(** X9. The periodic refresh resets every group that is updated with the
    period and is metered, exactly as [reset_quota] does, and leaves every
    other group, the applications and the outbox as they are. *)
Theorem refresh_period_time_rows (now : Z) (w : App.World) (k : Z) :
  App.quota_groups (App.refresh_period_time now w) !! k
  = match App.quota_groups w !! k with
    | Some g =>
        if Quota.update_time_on_period g
           && negb (Quota.unmetered (Quota.period_time g))
        then Some (reset_row now g)
        else Some g
    | None => None
    end
  /\ App.applications (App.refresh_period_time now w) = App.applications w
  /\ App.outbox (App.refresh_period_time now w) = App.outbox w.
Proof.
  split; [|split; reflexivity].
  unfold App.refresh_period_time. cbn [App.quota_groups App.with_quota_groups].
  rewrite refresh_loop.
  - rewrite find_selected. cbn [fst snd].
    destruct (App.quota_groups w !! k) as [g|]; [|reflexivity].
    destruct (Quota.update_time_on_period g); [|reflexivity].
    cbn [fst snd andb negb].
    destruct (Quota.unmetered (Quota.period_time g)) eqn:Hu; [|reflexivity].
    cbn [negb]. rewrite (reset_row_unmetered now g Hu). reflexivity.
  - apply NoDup_fst_filter, NoDup_fst_map_to_list.
  - intros k1 g1 Hin. apply filter_In in Hin as [Hin _].
    apply list_elem_of_In, elem_of_map_to_list in Hin. exact Hin.
Qed.

Lemma nonempty_length {A} (l : list A) (x : A) :
  In x l -> Nat.eqb (length l) 0 = false.
Proof. destruct l; [contradiction | reflexivity]. Qed.

(** X10. The refresh is due whenever no application is submitted, and also
    whenever no group is the main one; it is not due while a submitted
    application belongs to a laboratory whose group is main and active,
    whatever the balances are. *)
Theorem refresh_due (w : App.World) :
  ((forall k a, App.applications w !! k = Some a -> App.status a <> "submitted") ->
   App.check_if_period_needs_refresh w = true)
  /\ ((forall k g, App.quota_groups w !! k = Some g -> Quota.main g = false) ->
      App.check_if_period_needs_refresh w = true)
  /\ (forall (k gk : Z) (a : App.Row) (l : Labs.Laboratory) (g : Quota.QuotaGroup),
        App.applications w !! k = Some a ->
        App.status a = "submitted" ->
        App.laboratories w !! App.lab a = Some l ->
        Labs.quota_group l = Some gk ->
        App.quota_groups w !! gk = Some g ->
        Quota.main g = true ->
        Quota.is_active g = true ->
        App.check_if_period_needs_refresh w = false).
Proof.
  unfold App.check_if_period_needs_refresh. split; [|split].
  - intros Hnone.
    destruct (List.filter _ (map_to_list (App.quota_groups w))); [reflexivity|].
    rewrite NotificationFacts.filter_none; [reflexivity|].
    intros [k a] Hin. apply list_elem_of_In, elem_of_map_to_list in Hin.
    cbn [fst snd]. apply Hnone in Hin. apply String.eqb_neq in Hin.
    rewrite Hin. apply andb_false_r.
  - intros Hnone. rewrite NotificationFacts.filter_none; [reflexivity|].
    intros [k g] Hin. apply list_elem_of_In, elem_of_map_to_list in Hin.
    cbn [snd]. unfold App.not_needing_refresh. rewrite (Hnone k g Hin).
    reflexivity.
  - intros k gk a l g Ha Hst Hl Hq Hg Hmain Hact.
    set (gs := List.filter _ (map_to_list (App.quota_groups w))).
    assert (Hgs : In (gk, g) gs).
    { apply filter_In. split.
      - apply list_elem_of_In, elem_of_map_to_list. exact Hg.
      - cbn [snd]. unfold App.not_needing_refresh. rewrite Hmain, Hact.
        cbn [andb]. apply orb_true_r. }
    destruct gs as [|g0 gs'] eqn:Egs; [contradiction|]. rewrite <- Egs in *.
    set (labs := List.filter _ (map_to_list (App.laboratories w))).
    assert (Hlabs : In (App.lab a, l) labs).
    { apply filter_In. split.
      - apply list_elem_of_In, elem_of_map_to_list. exact Hl.
      - cbn [snd]. rewrite Hq. apply existsb_exists. exists (gk, g).
        split; [exact Hgs | apply Z.eqb_refl]. }
    apply (nonempty_length _ (k, a)). apply filter_In. split.
    + apply list_elem_of_In, elem_of_map_to_list. exact Ha.
    + cbn [fst snd]. rewrite Hst. cbn [String.eqb]. rewrite andb_true_r.
      apply existsb_exists. exists (App.lab a, l).
      split; [exact Hlabs | apply Z.eqb_refl].
Qed.

End RefreshFacts.

(** ** Transfers: conservation, refusals, the zero amount *)

Module TransferMoreFacts.
Import Py Quota Transfer.



(** A form with an error is sent back and nothing is written. *)
Lemma post_with_error (now user_pk dpk : Z) (lab : Labs.Laboratory)
    (d : QuotaGroup) (data : PostData) (w : World) (e : form_error) :
  Labs.quota_group lab = Some dpk ->
  groups w !! dpk = Some d ->
  In e (snd (full_clean (dpk, d) (groups w) data)) ->
  exists errors,
    post now user_pk lab data w = (form_invalid errors, w) /\ In e errors.
Proof.
  intros Hl Hd Hin. unfold post, Labs.related_group. rewrite Hl, Hd.
  destruct (full_clean (dpk, d) (groups w) data) as [[acc amount] errors].
  cbn [snd] in Hin. exists errors.
  destruct errors; [contradiction|]. auto.
Qed.

(** X12. Refusals that come from the fields: an acceptor that is missing,
    unknown or inactive, hours that are missing or negative, minutes that
    are missing or outside 0..59. Each sends the form back with the matching
    error and changes nothing. *)
Theorem transfer_field_refusals (now user_pk dpk : Z) (lab : Labs.Laboratory)
    (d : QuotaGroup) (data : PostData) (w : World) :
  Labs.quota_group lab = Some dpk ->
  groups w !! dpk = Some d ->
  (match acceptor data with
   | Some apk =>
       match groups w !! apk with
       | Some a => is_active a = false
       | None => True
       end
   | None => True
   end ->
   exists errors,
     post now user_pk lab data w = (form_invalid errors, w)
     /\ In invalid_acceptor errors)
  /\ (match hours data with Some h => h < 0 | None => True end ->
      exists errors,
        post now user_pk lab data w = (form_invalid errors, w)
        /\ In invalid_hours errors)
  /\ (match minutes data with Some m => m < 0 \/ 59 < m | None => True end ->
      exists errors,
        post now user_pk lab data w = (form_invalid errors, w)
        /\ In invalid_minutes errors).
Proof.
  intros Hl Hd. split; [|split]; intros H;
    apply (post_with_error now user_pk dpk lab d data w _ Hl Hd);
    unfold full_clean; cbn [fst snd]; rewrite !in_app_iff.
  - left. right. right.
    assert (E : clean_acceptor dpk (groups w) (acceptor data) = None).
    { unfold clean_acceptor. destruct (acceptor data) as [apk|]; [|reflexivity].
      destruct (groups w !! apk) as [a|]; [|reflexivity].
      rewrite H. reflexivity. }
    rewrite E. left. reflexivity.
  - left. left.
    assert (E : clean_hours (hours data) = None).
    { unfold clean_hours. destruct (hours data) as [h|]; [|reflexivity].
      destruct (Z.leb_spec 0 h); [lia | reflexivity]. }
    rewrite E. left. reflexivity.
  - left. right. left.
    assert (E : clean_minutes (minutes data) = None).
    { unfold clean_minutes. destruct (minutes data) as [m|]; [|reflexivity].
      destruct (Z.leb_spec 0 m); destruct (Z.leb_spec m 59);
        try reflexivity; lia. }
    rewrite E. left. reflexivity.
Qed.

Lemma transfer_field_refusals_witness :
  (match acceptor (Samples.request 4 3) with
   | Some apk =>
       match groups Samples.ledger !! apk with
       | Some a => is_active a = false
       | None => True
       end
   | None => True
   end ->
   exists errors,
     post 0 7 (Samples.laboratory (Some 1)) (Samples.request 4 3) Samples.ledger
     = (form_invalid errors, Samples.ledger)
     /\ In invalid_acceptor errors)
  /\ (match hours (Samples.request 4 3) with Some h => h < 0 | None => True end ->
      exists errors,
        post 0 7 (Samples.laboratory (Some 1)) (Samples.request 4 3) Samples.ledger
        = (form_invalid errors, Samples.ledger)
        /\ In invalid_hours errors)
  /\ (match minutes (Samples.request 4 3) with
      | Some m => m < 0 \/ 59 < m
      | None => True
      end ->
      exists errors,
        post 0 7 (Samples.laboratory (Some 1)) (Samples.request 4 3) Samples.ledger
        = (form_invalid errors, Samples.ledger)
        /\ In invalid_minutes errors).
Proof.
  apply (transfer_field_refusals 0 7 1 (Samples.laboratory (Some 1))
           Samples.metered_group (Samples.request 4 3) Samples.ledger).
  - reflexivity.
  - reflexivity.
Defined.

(** X13. A transfer of 0 hours 0 minutes from a group that is not overdrawn
    to another active group is accepted: no balance is written, yet a
    transaction row with amount zero is recorded. *)
Theorem zero_transfer_recorded (now user_pk dpk apk : Z) (lab : Labs.Laboratory)
    (d a : QuotaGroup) (w : World) :
  Labs.quota_group lab = Some dpk ->
  groups w !! dpk = Some d ->
  (0 <= current_time d)%Q ->
  apk <> dpk ->
  groups w !! apk = Some a ->
  is_active a = true ->
  post now user_pk lab (mkPost (Some 0) (Some 0) (Some apk)) w
  = (redirect_success,
     {| groups := groups w;
        transactions :=
          (transactions w
           ++ [mkTransaction user_pk dpk apk (transfer_amount 0 0) now])%list |}).
Proof.
  intros Hl Hd Hpos Hne Ha Hact. unfold post, Labs.related_group.
  rewrite Hl, Hd.
  rewrite (TransferFacts.full_clean_accepts dpk apk 0 0 d a (groups w)
             (mkPost (Some 0) (Some 0) (Some apk)));
    try reflexivity; try assumption; try lia.
  unfold Qle in *. simpl in *. lia.
Qed.

Lemma zero_transfer_recorded_witness :
  post 0 7 (Samples.laboratory (Some 1)) (mkPost (Some 0) (Some 0) (Some 2))
    Samples.ledger
  = (redirect_success,
     {| groups := groups Samples.ledger;
        transactions :=
          (transactions Samples.ledger
           ++ [mkTransaction 7 1 2 (transfer_amount 0 0) 0])%list |}).
Proof.
  apply (zero_transfer_recorded 0 7 1 2 (Samples.laboratory (Some 1))
           Samples.metered_group Samples.metered_group Samples.ledger).
  - reflexivity.
  - reflexivity.
  - unfold Qle. simpl. lia.
  - lia.
  - reflexivity.
  - reflexivity.
Defined.

End TransferMoreFacts.

(** ** Rounding *)

Module RoundingFacts.
Import Py.

(** Equal rationals round to the same integer. *)
Lemma round_half_even_comp (x y : Q) :
  (x == y)%Q -> round_half_even x = round_half_even y.
Proof.
  intros H. unfold round_half_even. rewrite (Qfloor_comp x y H).
  assert (E : ((x - inject_Z (Qfloor y) ?= 1 # 2)
               = (y - inject_Z (Qfloor y) ?= 1 # 2))%Q).
  { apply Qcompare_comp; [rewrite H|]; reflexivity. }
  rewrite E. reflexivity.
Qed.





End RoundingFacts.

(** ** Priority: range and the far deadline *)

Module PriorityMoreFacts.
Import Py App.

(** The fields of a positive [timedelta] are not negative. *)
Lemma positive_delta_fields (delta : Z) :
  0 < delta -> 0 <= Datetime.days delta /\ 0 <= Datetime.seconds delta.
Proof.
  intros H. unfold Datetime.days, Datetime.seconds, us_per_day, us_per_second.
  split.
  - apply Z.div_pos; lia.
  - apply Z.div_pos; [|lia]. apply Z.mod_pos_bound. lia.
Qed.



(** X15. Without the ASAP flag, a deadline fourteen days away or more gives
    priority 0. *)
Theorem priority_far_deadline (now d : Z) (self : Row) :
  asap_priority self = false ->
  deadline self = Some d ->
  now + Datetime.of_days 14 <= d ->
  (priority now self == 0)%Q.
Proof.
  intros Hasap Hd Hfar. unfold priority. rewrite Hasap, Hd.
  unfold Datetime.of_days, us_per_day, us_per_second in Hfar.
  destruct (Z.leb_spec (d - now) 0) as [Hover | Hleft]; [lia|].
  destruct (positive_delta_fields (d - now) Hleft) as [Hdays Hsecs].
  assert (H14 : 14 <= Datetime.days (d - now)%Z).
  { unfold Datetime.days, us_per_day, us_per_second.
    apply Z.div_le_lower_bound; lia. }
  set (days_left := (inject_Z (Datetime.days (d - now)%Z)
                     + inject_Z (Datetime.seconds (d - now)%Z) / inject_Z 86400)%Q).
  assert (Hge : (14 # 1 <= days_left)%Q).
  { subst days_left.
    assert (H1 : (inject_Z 14 <= inject_Z (Datetime.days (d - now)%Z))%Q)
      by (rewrite <- Zle_Qle; exact H14).
    assert (H2 : (inject_Z 0 <= inject_Z (Datetime.seconds (d - now)%Z))%Q)
      by (rewrite <- Zle_Qle; exact Hsecs).
    change (inject_Z 14) with (14 # 1)%Q in H1.
    change (inject_Z 0) with 0%Q in H2.
    unfold Qdiv. change (/ inject_Z 86400)%Q with (1 # 86400)%Q. lra. }
  destruct (decimal_ltb (14 # 1)%Q days_left) eqn:Hlt; [reflexivity|].
  apply TransferFacts.decimal_ltb_ge in Hlt.
  assert (Hz : ((100 # 1) * ((1 # 1) - days_left / (14 # 1)) * 100 == 0)%Q).
  { unfold Qdiv. change (/ (14 # 1))%Q with (1 # 14)%Q. lra. }
  unfold round2. rewrite (RoundingFacts.round_half_even_comp _ _ Hz).
  reflexivity.
Qed.

Lemma priority_far_deadline_witness :
  (priority 0 (Samples.with_urgency (Some (Datetime.of_days 20)) false Samples.blank)
   == 0)%Q.
Proof.
  apply (priority_far_deadline 0 (Datetime.of_days 20)
           (Samples.with_urgency (Some (Datetime.of_days 20)) false Samples.blank)).
  - reflexivity.
  - reflexivity.
  - vm_compute. discriminate.
Defined.

End PriorityMoreFacts.

(** ** Time spent: bounds, errors, swapped times *)

Module TimeMoreFacts.
Import Py App.







End TimeMoreFacts.

(** ** Saving: frames of the receivers *)

Module ReceiverFacts.
Import Py App.

(** The two mail receivers touch the outbox only. *)
Lemma status_changed_frame (inst : Instance) (w : World) :
  applications (application_status_changed inst w) = applications w
  /\ probes (application_status_changed inst w) = probes w
  /\ laboratories (application_status_changed inst w) = laboratories w
  /\ quota_groups (application_status_changed inst w) = quota_groups w
  /\ diffdevices (application_status_changed inst w) = diffdevices w
  /\ users (application_status_changed inst w) = users w.
Proof.
  unfold application_status_changed.
  repeat match goal with
         | |- context [if ?b then _ else _] => destruct b
         | |- context [match ?o with Some _ => _ | None => _ end] => destruct o
         end; repeat split.
Qed.

Lemma data_status_changed_frame (inst : Instance) (w : World) :
  applications (application_data_status_changed inst w) = applications w
  /\ probes (application_data_status_changed inst w) = probes w
  /\ laboratories (application_data_status_changed inst w) = laboratories w
  /\ quota_groups (application_data_status_changed inst w) = quota_groups w
  /\ diffdevices (application_data_status_changed inst w) = diffdevices w
  /\ users (application_data_status_changed inst w) = users w.
Proof.
  unfold application_data_status_changed.
  repeat match goal with
         | |- context [if ?b then _ else _] => destruct b
         | |- context [match ?o with Some _ => _ | None => _ end] => destruct o
         end; repeat split.
Qed.

(** Before an instance has a key no status mail is sent. *)
Lemma status_changed_without_key (inst : Instance) (w : World) :
  pk inst = None -> application_status_changed inst w = w.
Proof.
  intros H. unfold application_status_changed, pk_truthy. rewrite H.
  destruct (String.eqb _ "completed"); [reflexivity|].
  destruct (String.eqb _ "rejected"); reflexivity.
Qed.

(** The key chosen for a new row is positive and not in use. *)
Lemma fresh_pk_spec (m : gmap Z Row) :
  0 < fresh_pk m /\ m !! fresh_pk m = None.
Proof.
  unfold fresh_pk.
  assert (H : 0 <= map_fold (fun k _ acc => Z.max k acc) 0 m
              /\ forall k, is_Some (m !! k) ->
                           k <= map_fold (fun k _ acc => Z.max k acc) 0 m).
  { apply (map_fold_weak_ind
             (fun r (m : gmap Z Row) => 0 <= r /\ forall k, is_Some (m !! k) -> k <= r)).
    - split; [lia|]. intros k [x Hx]. rewrite lookup_empty in Hx. discriminate.
    - intros i x m0 r Hi [Hr Hall]. split; [lia|].
      intros k Hk. destruct (Z.eq_dec k i) as [->|Hne]; [lia|].
      rewrite lookup_insert_ne in Hk by congruence.
      specialize (Hall k Hk). lia. }
  destruct H as [H0 Hall]. split; [lia|].
  destruct (m !! (1 + map_fold (fun k _ acc => Z.max k acc) 0 m)) eqn:E;
    [|reflexivity].
  specialize (Hall _ (ex_intro _ _ E)). lia.
Qed.

End ReceiverFacts.

(** ** Saving: creation, narrow saves, mails, repeated saves *)

Module SaveMoreFacts.
Import Py App.

Lemma pk_truthy_some (inst : Instance) (k : Z) :
  pk inst = Some k -> k <> 0 -> pk_truthy inst = Some k.
Proof.
  intros H Hk. unfold pk_truthy. rewrite H.
  destruct (Z.eqb_spec k 0); congruence.
Qed.

(** X18. The first save of an application that is not created as completed:
    the row is inserted under a new positive key, with no previous status;
    the time is not computed and no quota is charged, whatever dates and
    times the instance carries; no completion or rejection mail is sent, and
    a data mail only when the instance is created with data already sent. *)
Theorem first_save_creates (py : PyLib) (now : Z) (self : Instance) (w : World) :
  pk self = None ->
  status (row self) <> "completed" ->
  exists (self' : Instance) (w' : World),
    save py now None self w = ret (self', w')
    /\ pk self' = Some (fresh_pk (applications w))
    /\ 0 < fresh_pk (applications w)
    /\ applications w !! fresh_pk (applications w) = None
    /\ row self' = set_prev_status None (row self)
    /\ applications w'
       = <[fresh_pk (applications w) := set_prev_status None (row self)]>
           (applications w)
    /\ quota_groups w' = quota_groups w
    /\ outbox w'
       = (outbox w
          ++ if String.eqb (data_status (row self)) "DATA_SENT"
                && negb (String.eqb (prev_data_status (row self)) "DATA_SENT")
             then [data_published_email (fresh_pk (applications w))]
             else [])%list.
Proof.
  intros Hpk Hst.
  destruct (ReceiverFacts.fresh_pk_spec (applications w)) as [Hpos Hfree].
  set (k := fresh_pk (applications w)) in *.
  unfold save, pk_truthy. rewrite Hpk. cbn [mbind result_bind fst snd].
  unfold model_save.
  rewrite ReceiverFacts.status_changed_without_key by exact Hpk.
  unfold save_table. cbn [pk with_row]. rewrite Hpk.
  cbn [mbind result_bind fst snd]. fold k.
  rewrite (SaveFacts.handle_application_time_inert now k _ _
             (set_prev_status None (row self)));
    [| apply lookup_insert_eq | reflexivity | reflexivity].
  apply String.eqb_neq in Hst.
  cbn [row with_row with_pk with_prev_status status set_prev_status].
  rewrite Hst. cbn [andb].
  eexists _, _. split; [reflexivity|].
  split; [reflexivity|]. split; [exact Hpos|]. split; [exact Hfree|].
  split; [reflexivity|].
  unfold application_data_status_changed, pk_truthy.
  cbn [pk with_pk with_row row data_status prev_data_status set_prev_status].
  destruct (Z.eqb_spec k 0) as [E|_]; [lia|].
  destruct (String.eqb (data_status (row self)) "DATA_SENT");
    [destruct (String.eqb (prev_data_status (row self)) "DATA_SENT")|];
    cbn [andb negb]; repeat split; cbn [outbox with_applications];
    rewrite ?app_nil_r; reflexivity.
Qed.

Lemma first_save_creates_witness :
  exists (self' : Instance) (w' : World),
    save Samples.py 0 None (init None Samples.three_hours)
      (Samples.world Samples.blank Samples.metered_group)
    = ret (self', w')
    /\ pk self'
       = Some (fresh_pk (applications (Samples.world Samples.blank
                                         Samples.metered_group)))
    /\ 0 < fresh_pk (applications (Samples.world Samples.blank
                                     Samples.metered_group))
    /\ applications (Samples.world Samples.blank Samples.metered_group)
       !! fresh_pk (applications (Samples.world Samples.blank
                                    Samples.metered_group)) = None
    /\ row self' = set_prev_status None (row (init None Samples.three_hours))
    /\ applications w'
       = <[fresh_pk (applications (Samples.world Samples.blank
                                     Samples.metered_group))
           := set_prev_status None (row (init None Samples.three_hours))]>
           (applications (Samples.world Samples.blank Samples.metered_group))
    /\ quota_groups w'
       = quota_groups (Samples.world Samples.blank Samples.metered_group)
    /\ outbox w'
       = (outbox (Samples.world Samples.blank Samples.metered_group)
          ++ if String.eqb (data_status (row (init None Samples.three_hours)))
                  "DATA_SENT"
                && negb (String.eqb
                           (prev_data_status (row (init None Samples.three_hours)))
                           "DATA_SENT")
             then [data_published_email
                     (fresh_pk (applications (Samples.world Samples.blank
                                                Samples.metered_group)))]
             else [])%list.
Proof.
  apply (first_save_creates Samples.py 0 (init None Samples.three_hours)
           (Samples.world Samples.blank Samples.metered_group)).
  - reflexivity.
  - discriminate.
Defined.

End SaveMoreFacts.

(** ** Saving: what a full save and a narrow save do *)

Module SaveShapeFacts.
Import Py App Mails.

(** The outbox after each mail receiver. *)
Lemma status_changed_outbox (inst : Instance) (w : World) (k : Z) :
  pk_truthy inst = Some k ->
  outbox (application_status_changed inst w)
  = (outbox w ++ status_mails k (status (row inst)) (previous_status inst))%list.
Proof.
  intros Hk. unfold application_status_changed, status_mails. rewrite Hk.
  destruct (String.eqb (status (row inst)) "completed").
  - destruct (String.eqb (previous_status inst) "completed"); cbn [negb outbox emit];
      [rewrite app_nil_r | rewrite <- app_assoc]; reflexivity.
  - destruct (String.eqb (status (row inst)) "rejected");
      [|rewrite app_nil_r; reflexivity].
    destruct (String.eqb (previous_status inst) "rejected"); cbn [negb outbox emit];
      [rewrite app_nil_r | rewrite <- app_assoc]; reflexivity.
Qed.

Lemma data_status_changed_outbox (inst : Instance) (w : World) (k : Z) :
  pk_truthy inst = Some k ->
  outbox (application_data_status_changed inst w)
  = (outbox w
     ++ data_mails k (data_status (row inst)) (prev_data_status (row inst)))%list.
Proof.
  intros Hk. unfold application_data_status_changed, data_mails. rewrite Hk.
  destruct (String.eqb (data_status (row inst)) "DATA_SENT");
    [|rewrite app_nil_r; reflexivity].
  destruct (String.eqb (prev_data_status (row inst)) "DATA_SENT");
    cbn [negb outbox emit]; [rewrite app_nil_r|]; reflexivity.
Qed.

(** The time-update step either changes nothing, or records a time and
    writes quota groups. *)
Lemma update_time_frame (py : PyLib) (self self1 : Instance) (w w1 : World) :
  update_time py self w = ret (self1, w1) ->
  (self1 = self /\ w1 = w)
  \/ exists (t : Decimal) (gs : Quota.table),
       self1 = with_row (set_time_spent t (row self)) self
       /\ w1 = with_quota_groups gs w.
Proof.
  unfold update_time.
  destruct (compute_time_spent py (diffdevices w) (row self) _ _ _ _) as [[t|]|e];
    cbn [mbind result_bind]; try discriminate.
  - destruct (decimal_truthy t).
    + destruct (laboratories w !! lab (row self)) as [l|]; [|discriminate].
      intros H. injection H as <- <-. right. eauto.
    + intros H. injection H as <- <-. left. auto.
  - intros H. injection H as <- <-. left. auto.
Qed.

(** A full save of an instance with a key, in terms of the time-update step
    and the receivers. *)
Lemma save_full_shape (py : PyLib) (now k : Z) (self self1 : Instance)
    (w w1 : World) :
  pk self = Some k ->
  k <> 0 ->
  update_time py self w = ret (self1, w1) ->
  pk self1 = Some k ->
  save py now None self w
  = ret (with_prev_status
           (status
              (match applications w1 !! k with
               | Some old =>
                   set_prev (data_status old) (Some (status old)) (row self1)
               | None => set_prev_status None (row self1)
               end))
           (with_row
              (match applications w1 !! k with
               | Some old =>
                   set_prev (data_status old) (Some (status old)) (row self1)
               | None => set_prev_status None (row self1)
               end) self1),
         application_data_status_changed
           (with_row
              (match applications w1 !! k with
               | Some old =>
                   set_prev (data_status old) (Some (status old)) (row self1)
               | None => set_prev_status None (row self1)
               end) self1)
           (with_applications
              (<[k := match applications w1 !! k with
                      | Some old =>
                          set_prev (data_status old) (Some (status old)) (row self1)
                      | None => set_prev_status None (row self1)
                      end]>
                 (applications w1))
              (application_status_changed
                 (with_row
                    (match applications w1 !! k with
                     | Some old =>
                         set_prev (data_status old) (Some (status old)) (row self1)
                     | None => set_prev_status None (row self1)
                     end) self1) w1))).
Proof.
  intros Hpk Hk Hu Hpk1. unfold save.
  rewrite (SaveMoreFacts.pk_truthy_some self k Hpk Hk), Hu.
  cbn [mbind result_bind fst snd].
  destruct (applications w1 !! k) as [old|];
    cbn [mbind result_bind fst snd];
    rewrite (SaveFacts.model_save_full now k) by exact Hpk1;
    cbn [mbind result_bind fst snd];
    rewrite (proj1 (ReceiverFacts.status_changed_frame _ _)); reflexivity.
Qed.

(** X19. A full save of a stored application whose time-update step
    succeeds sends the completion or rejection mail (with the plot refresh)
    when the status is 'completed' or 'rejected' and differs from the status
    the instance remembers, then the data mail when the data status is
    'DATA_SENT' and the stored row's is not, and nothing else. The instance
    and the stored row get the stored status and data status as previous
    values, and the instance remembers its status. *)
Theorem full_save_mails (py : PyLib) (now k : Z) (self self1 : Instance)
    (w w1 : World) (old : Row) :
  pk self = Some k ->
  k <> 0 ->
  update_time py self w = ret (self1, w1) ->
  applications w !! k = Some old ->
  exists (self' : Instance) (w' : World),
    save py now None self w = ret (self', w')
    /\ outbox w'
       = (outbox w
          ++ status_mails k (status (row self)) (previous_status self)
          ++ data_mails k (data_status (row self)) (data_status old))%list
    /\ prev_status (row self') = Some (status old)
    /\ prev_data_status (row self') = data_status old
    /\ previous_status self' = status (row self)
    /\ applications w' !! k = Some (row self').
Proof.
  intros Hpk Hk Hu Hold.
  assert (Hframe : pk self1 = Some k
                   /\ applications w1 = applications w
                   /\ outbox w1 = outbox w
                   /\ status (row self1) = status (row self)
                   /\ data_status (row self1) = data_status (row self)
                   /\ previous_status self1 = previous_status self).
  { destruct (update_time_frame py self self1 w w1 Hu)
      as [[-> ->] | (t & gs & -> & ->)]; repeat split; assumption. }
  destruct Hframe as (Hpk1 & Happs & Hout & Hst & Hds & Hprev).
  rewrite (save_full_shape py now k self self1 w w1 Hpk Hk Hu Hpk1).
  rewrite Happs, Hold.
  eexists _, _. split; [reflexivity|].
  split.
  - rewrite (data_status_changed_outbox _ _ k)
      by (apply SaveMoreFacts.pk_truthy_some; assumption).
    cbn [outbox with_applications].
    rewrite (status_changed_outbox _ _ k)
      by (apply SaveMoreFacts.pk_truthy_some; assumption).
    cbn [row with_row status data_status prev_data_status set_prev].
    unfold previous_status in *. cbn [_prev_status with_row].
    rewrite Hout, Hst, Hds, Hprev, app_assoc. reflexivity.
  - split; [reflexivity|]. split; [reflexivity|].
    split; [cbn; exact Hst|].
    rewrite (proj1 (ReceiverFacts.data_status_changed_frame _ _)).
    cbn [applications with_applications]. rewrite lookup_insert_eq.
    reflexivity.
Qed.

Lemma full_save_mails_witness :
  exists (self' : Instance) (w' : World),
    save Samples.py 0 None
      (with_row (set_data_status "DATA_SENT" Samples.reduced)
         (from_db 5 Samples.reduced))
      (Samples.archive Samples.reduced) = ret (self', w')
    /\ outbox w'
       = (outbox (Samples.archive Samples.reduced)
          ++ status_mails 5
               (status (row (with_row (set_data_status "DATA_SENT" Samples.reduced)
                               (from_db 5 Samples.reduced))))
               (previous_status
                  (with_row (set_data_status "DATA_SENT" Samples.reduced)
                     (from_db 5 Samples.reduced)))
          ++ data_mails 5
               (data_status
                  (row (with_row (set_data_status "DATA_SENT" Samples.reduced)
                          (from_db 5 Samples.reduced))))
               (data_status Samples.reduced))%list
    /\ prev_status (row self') = Some (status Samples.reduced)
    /\ prev_data_status (row self') = data_status Samples.reduced
    /\ previous_status self'
       = status (row (with_row (set_data_status "DATA_SENT" Samples.reduced)
                        (from_db 5 Samples.reduced)))
    /\ applications w' !! 5 = Some (row self').
Proof.
  apply (full_save_mails Samples.py 0 5
           (with_row (set_data_status "DATA_SENT" Samples.reduced)
              (from_db 5 Samples.reduced))
           (with_row (set_data_status "DATA_SENT" Samples.reduced)
              (from_db 5 Samples.reduced))
           (Samples.archive Samples.reduced) (Samples.archive Samples.reduced)
           Samples.reduced).
  - reflexivity.
  - lia.
  - reflexivity.
  - reflexivity.
Defined.

(** X20. A narrow save (a non-empty [update_fields]) of a stored application
    whose status was not changed in memory: only the listed columns of the
    row are written; the time is not recomputed and no quota is charged; the
    instance gets the stored status and data status as previous values, but
    the row keeps its old previous data status unless that column is listed;
    the mails are those of a full save. *)
Theorem narrow_save_columns (py : PyLib) (now k : Z) (self : Instance) (w : World)
    (old : Row) (f0 : column) (fs : list column) :
  pk self = Some k ->
  k <> 0 ->
  applications w !! k = Some old ->
  status (row self) = status old ->
  exists (self' : Instance) (w' : World) (stored : Row),
    save py now (Some (f0 :: fs)) self w = ret (self', w')
    /\ stored = merge (fun c => bool_decide (c ∈ f0 :: fs)) (row self') old
    /\ applications w' = <[k := stored]> (applications w)
    /\ quota_groups w' = quota_groups w
    /\ time_spent (row self') = time_spent (row self)
    /\ prev_status (row self') = Some (status old)
    /\ prev_data_status (row self') = data_status old
    /\ (c_prev_data_status ∉ f0 :: fs ->
        prev_data_status stored = prev_data_status old)
    /\ (c_time_spent ∉ f0 :: fs -> time_spent stored = time_spent old)
    /\ (c_data_status ∉ f0 :: fs -> data_status stored = data_status old)
    /\ outbox w'
       = (outbox w
          ++ status_mails k (status (row self)) (previous_status self)
          ++ data_mails k (data_status (row self)) (data_status old))%list.
Proof.
  intros Hpk Hk Hold Hst. unfold save.
  rewrite (SaveMoreFacts.pk_truthy_some self k Hpk Hk).
  cbn [mbind result_bind fst snd]. rewrite Hold.
  cbn [mbind result_bind fst snd]. unfold model_save, save_table.
  cbn [pk with_row]. rewrite Hpk.
  rewrite (proj1 (ReceiverFacts.status_changed_frame _ _)), Hold.
  cbn [mbind result_bind fst snd].
  set (self2 := with_row (set_prev (data_status old) (Some (status old)) (row self))
                  self).
  set (stored := merge (fun c => bool_decide (c ∈ f0 :: fs)) (row self2) old).
  assert (Hp2 : pk_truthy self2 = Some k)
    by (apply SaveMoreFacts.pk_truthy_some; [exact Hpk | exact Hk]).
  rewrite (SaveFacts.handle_application_time_inert now k self2 _ stored);
    [| apply lookup_insert_eq
     | subst stored self2;
       cbn [status merge row with_row set_prev];
       destruct (bool_decide (c_status ∈ f0 :: fs)); [reflexivity | congruence]
     | exact Hpk].
  eexists (with_prev_status (status (row self2)) self2), _, stored.
  split; [reflexivity|]. split; [reflexivity|].
  split.
  { rewrite (proj1 (ReceiverFacts.data_status_changed_frame _ _)). reflexivity. }
  split.
  { rewrite (proj1 (proj2 (proj2 (proj2
               (ReceiverFacts.data_status_changed_frame _ _))))).
    cbn [quota_groups with_applications].
    apply (proj1 (proj2 (proj2 (proj2
             (ReceiverFacts.status_changed_frame _ _))))). }
  split; [reflexivity|]. split; [reflexivity|]. split; [reflexivity|].
  split.
  { intros Hn. subst stored. cbn [prev_data_status merge].
    rewrite bool_decide_eq_false_2 by exact Hn. reflexivity. }
  split.
  { intros Hn. subst stored. cbn [time_spent merge].
    rewrite bool_decide_eq_false_2 by exact Hn. reflexivity. }
  split.
  { intros Hn. subst stored. cbn [data_status merge].
    rewrite bool_decide_eq_false_2 by exact Hn. reflexivity. }
  rewrite (data_status_changed_outbox _ _ k Hp2).
  cbn [outbox with_applications].
  rewrite (status_changed_outbox _ _ k Hp2), app_assoc. reflexivity.
Qed.

Lemma narrow_save_columns_witness :
  exists (self' : Instance) (w' : World) (stored : Row),
    save Samples.py 0 (Some [c_locked_by; c_locked_at])
      (from_db 5 Samples.sent) (Samples.archive Samples.sent) = ret (self', w')
    /\ stored
       = merge (fun c => bool_decide (c ∈ [c_locked_by; c_locked_at]))
           (row self') Samples.sent
    /\ applications w' = <[5 := stored]> (applications (Samples.archive Samples.sent))
    /\ quota_groups w' = quota_groups (Samples.archive Samples.sent)
    /\ time_spent (row self') = time_spent (row (from_db 5 Samples.sent))
    /\ prev_status (row self') = Some (status Samples.sent)
    /\ prev_data_status (row self') = data_status Samples.sent
    /\ (c_prev_data_status ∉ [c_locked_by; c_locked_at] ->
        prev_data_status stored = prev_data_status Samples.sent)
    /\ (c_time_spent ∉ [c_locked_by; c_locked_at] ->
        time_spent stored = time_spent Samples.sent)
    /\ (c_data_status ∉ [c_locked_by; c_locked_at] ->
        data_status stored = data_status Samples.sent)
    /\ outbox w'
       = (outbox (Samples.archive Samples.sent)
          ++ status_mails 5 (status (row (from_db 5 Samples.sent)))
               (previous_status (from_db 5 Samples.sent))
          ++ data_mails 5 (data_status (row (from_db 5 Samples.sent)))
               (data_status Samples.sent))%list.
Proof.
  apply (narrow_save_columns Samples.py 0 5 (from_db 5 Samples.sent)
           (Samples.archive Samples.sent) Samples.sent c_locked_by [c_locked_at]).
  - reflexivity.
  - lia.
  - reflexivity.
  - reflexivity.
Defined.






(** X22. An exception raised while the time is computed leaves [save] before
    anything is written: a text that does not parse as an ISO date raises
    [ValueError], and an experiment over several dates on a diffractometer
    without the night constant raises [TypeError]. *)
Theorem time_errors_abort_save (py : PyLib) (now k : Z) (self : Instance)
    (w : World) :
  pk self = Some k ->
  k <> 0 ->
  (forall e,
      compute_time_spent py (diffdevices w) (row self)
        (experiment_start_date (row self)) (experiment_start (row self))
        (experiment_end_date (row self)) (experiment_end (row self))
      = raise e ->
      save py now None self w = raise e)
  /\ (forall (r : Row) (s : string) (st : field Datetime.time)
             (ed : field Datetime.date) (et : field Datetime.time),
        str_truthy s = true ->
        date_fromisoformat py s = None ->
        truthy st && truthy ed && truthy et = true ->
        compute_time_spent py (diffdevices w) r (text s) st ed et
        = raise ValueError)
  /\ (forall (r : Row) (sd ed : Datetime.date) (st et : Datetime.time)
             (device : DiffDevice),
        sd <> ed ->
        diffdevices w !! diffractometer r = Some device ->
        time_cons_night_experiment device = None ->
        compute_time_spent py (diffdevices w) r (value sd) (value st)
          (value ed) (value et)
        = raise TypeError).
Proof.
  intros Hpk Hk. split; [|split].
  - intros e He. unfold save.
    rewrite (SaveMoreFacts.pk_truthy_some self k Hpk Hk).
    unfold update_time. rewrite He. reflexivity.
  - intros r s st ed et Hs Hparse Hall. unfold compute_time_spent.
    cbn [truthy]. rewrite Hs. cbn [andb].
    destruct (truthy st), (truthy ed), (truthy et); try discriminate Hall.
    cbn [andb negb coerce]. rewrite Hparse. reflexivity.
  - intros r sd ed st et device Hne Hdev Hnight. unfold compute_time_spent.
    cbn [truthy andb negb coerce mbind result_bind].
    destruct (Z.eqb_spec sd ed); [contradiction|].
    cbn [negb]. rewrite Hdev, Hnight. reflexivity.
Qed.

Lemma time_errors_abort_save_witness :
  (forall e,
      compute_time_spent Samples.py
        (diffdevices (Samples.world Samples.three_hours Samples.metered_group))
        (row (from_db 5 Samples.three_hours))
        (experiment_start_date (row (from_db 5 Samples.three_hours)))
        (experiment_start (row (from_db 5 Samples.three_hours)))
        (experiment_end_date (row (from_db 5 Samples.three_hours)))
        (experiment_end (row (from_db 5 Samples.three_hours)))
      = raise e ->
      save Samples.py 0 None (from_db 5 Samples.three_hours)
        (Samples.world Samples.three_hours Samples.metered_group) = raise e)
  /\ (forall (r : Row) (s : string) (st : field Datetime.time)
             (ed : field Datetime.date) (et : field Datetime.time),
        str_truthy s = true ->
        date_fromisoformat Samples.py s = None ->
        truthy st && truthy ed && truthy et = true ->
        compute_time_spent Samples.py
          (diffdevices (Samples.world Samples.three_hours Samples.metered_group))
          r (text s) st ed et
        = raise ValueError)
  /\ (forall (r : Row) (sd ed : Datetime.date) (st et : Datetime.time)
             (device : DiffDevice),
        sd <> ed ->
        diffdevices (Samples.world Samples.three_hours Samples.metered_group)
        !! diffractometer r = Some device ->
        time_cons_night_experiment device = None ->
        compute_time_spent Samples.py
          (diffdevices (Samples.world Samples.three_hours Samples.metered_group))
          r (value sd) (value st) (value ed) (value et)
        = raise TypeError).
Proof.
  apply (time_errors_abort_save Samples.py 0 5 (from_db 5 Samples.three_hours)
           (Samples.world Samples.three_hours Samples.metered_group)).
  - reflexivity.
  - lia.
Defined.

End SaveShapeFacts.

(** ** Aggregated fields: rebuilding twice *)

Module AggregateMoreFacts.
Import Py App.

(** The refresh receiver leaves the probes alone. *)
Lemma handle_application_time_probes (now : Z) (inst : Instance) (w : World) :
  probes (handle_application_time now inst w) = probes w.
Proof.
  unfold handle_application_time.
  destruct (pk_truthy inst); [|reflexivity].
  destruct (applications w !! z); [|reflexivity].
  destruct (_ && _); [|reflexivity].
  destruct (check_if_period_needs_refresh w); reflexivity.
Qed.

(** A rebuild on a stored application: the instance returned, the row
    stored, and the probes untouched. *)
Lemma rebuild_shape (py : PyLib) (now k : Z) (self : Instance) (w : World)
    (stored : Row) :
  pk self = Some k ->
  applications w !! k = Some stored ->
  exists w' : World,
    update_aggregated_fields py now self w
    = ret (with_row (aggregate py (probes_of k w) (row self)) self, w')
    /\ applications w'
       = <[k := merge (fun c => bool_decide (c ∈ aggregated_columns))
                  (aggregate py (probes_of k w) (row self)) stored]>
           (applications w)
    /\ probes w' = probes w.
Proof.
  intros Hpk Hrow. unfold update_aggregated_fields. rewrite Hpk.
  unfold model_save, save_table. cbn [aggregated_columns pk with_row].
  rewrite Hpk, (proj1 (ReceiverFacts.status_changed_frame _ _)), Hrow.
  cbn [mbind result_bind fst snd].
  eexists. split; [reflexivity|]. split.
  - rewrite (proj1 (ReceiverFacts.data_status_changed_frame _ _)),
      AggregateFacts.handle_application_time_applications.
    reflexivity.
  - rewrite (proj1 (proj2 (ReceiverFacts.data_status_changed_frame _ _))),
      handle_application_time_probes.
    cbn [probes with_applications].
    apply (proj1 (proj2 (ReceiverFacts.status_changed_frame _ _))).
Qed.

Lemma probes_of_reads_probes (k : Z) (w w' : World) :
  probes w' = probes w -> probes_of k w' = probes_of k w.
Proof. intros H. unfold probes_of. rewrite H. reflexivity. Qed.

(** X23. Rebuilding the aggregates a second time changes nothing: the
    instance has the same columns and the table of applications is the one
    the first rebuild left. The rebuild never writes a probe. *)
Theorem rebuild_twice (py : PyLib) (now now' k : Z) (self : Instance) (w : World)
    (stored : Row) :
  pk self = Some k ->
  applications w !! k = Some stored ->
  exists (self1 self2 : Instance) (w1 w2 : World),
    update_aggregated_fields py now self w = ret (self1, w1)
    /\ update_aggregated_fields py now' self1 w1 = ret (self2, w2)
    /\ row self2 = row self1
    /\ applications w2 = applications w1
    /\ probes w2 = probes w.
Proof.
  intros Hpk Hrow.
  destruct (rebuild_shape py now k self w stored Hpk Hrow)
    as (w1 & Hret1 & Happs1 & Hprobes1).
  set (self1 := with_row (aggregate py (probes_of k w) (row self)) self) in *.
  assert (Hrow1 : applications w1 !! k
                  = Some (merge (fun c => bool_decide (c ∈ aggregated_columns))
                            (row self1) stored))
    by (rewrite Happs1; apply lookup_insert_eq).
  destruct (rebuild_shape py now' k self1 w1 _ Hpk Hrow1)
    as (w2 & Hret2 & Happs2 & Hprobes2).
  eexists self1, _, w1, w2. split; [exact Hret1|]. split; [exact Hret2|].
  rewrite (probes_of_reads_probes k w w1 Hprobes1) in *.
  split; [reflexivity|]. split; [|congruence].
  rewrite Happs2, Happs1, insert_insert_eq. reflexivity.
Qed.

Lemma rebuild_twice_witness :
  exists (self1 self2 : Instance) (w1 w2 : World),
    update_aggregated_fields Samples.py 0 (from_db 5 Samples.blank)
      Samples.three_probes = ret (self1, w1)
    /\ update_aggregated_fields Samples.py 1 self1 w1 = ret (self2, w2)
    /\ row self2 = row self1
    /\ applications w2 = applications w1
    /\ probes w2 = probes Samples.three_probes.
Proof.
  apply (rebuild_twice Samples.py 0 1 5 (from_db 5 Samples.blank)
           Samples.three_probes Samples.blank).
  - reflexivity.
  - reflexivity.
Defined.

End AggregateMoreFacts.


(** ** The lock over several requests *)

Module LockMoreFacts.
Import Py App ProcessView Locks.

(** The first dispatch of an operator who meets no foreign lock. *)
Lemma dispatch_free (py : PyLib) (tick : nat -> Z) (u k : Z) (w : World)
    (r : Row) (user : User) :
  k <> 0 ->
  applications w !! k = Some r ->
  users w !! u = Some user ->
  is_active_operator user = true ->
  locked_by r = None \/ locked_by r = Some u ->
  dispatch py tick (Some u) k w = (proceed, locked_for u (tick 0%nat) k r w).
Proof.
  intros Hk Hrow Huser Hop Hfree. unfold dispatch.
  rewrite Hrow, Huser, Hop. cbn [negb].
  destruct Hfree as [-> | ->].
  - apply LockFacts.acquire_spec; assumption.
  - rewrite Z.eqb_refl. cbn [negb]. apply LockFacts.acquire_spec; assumption.
Qed.

(** A dispatch that meets the lock of another user, stamped [locked]. *)
Lemma dispatch_held (py : PyLib) (tick : nat -> Z) (u holder locked k : Z)
    (w : World) (r : Row) (user h : User) :
  k <> 0 ->
  applications w !! k = Some r ->
  users w !! u = Some user ->
  is_active_operator user = true ->
  locked_by r = Some holder -> holder <> u ->
  locked_at r = Some locked ->
  users w !! holder = Some h ->
  dispatch py tick (Some u) k w
  = if tick 0%nat - locked <? operator_lock_cooldown
    then (permission_denied (conflict_prefix ++ full_name h)%string, w)
    else (proceed, locked_for u (tick 1%nat) k r w).
Proof.
  intros Hk Hrow Huser Hop Hby Hne Hat Hh. unfold dispatch.
  rewrite Hrow, Huser, Hop, Hby, Hat, Hh. cbn [negb].
  destruct (Z.eqb_spec holder u); [contradiction|]. cbn [negb].
  destruct (_ <? _); [reflexivity|].
  apply LockFacts.acquire_spec; assumption.
Qed.

Lemma locked_for_lookup (u stamp k : Z) (r : Row) (w : World) :
  applications (locked_for u stamp k r w) !! k
  = Some (set_lock (Some u) (Some stamp) r).
Proof. unfold locked_for. cbn. apply lookup_insert_eq. Qed.

Lemma locked_for_again (u v s t k : Z) (r : Row) (w : World) :
  locked_for v t k (set_lock (Some u) (Some s) r) (locked_for u s k r w)
  = locked_for v t k r w.
Proof.
  unfold locked_for. destruct w. cbn. rewrite insert_insert_eq. reflexivity.
Qed.

(** X24. Two operators and one application. Once [u] has entered, another
    active operator [v] is refused, with [u] named, for as long as less than
    two hours have passed since [u]'s entry, and the refusal changes nothing.
    From two hours on [v] enters and takes the lock over; [u], who was never
    told, is then refused in turn, with [v] named, until two hours after
    [v]'s stamp. An entry by [u] while [u] holds the lock always succeeds and
    moves the stamp to the time of that entry. *)
Theorem two_operators (py : PyLib) (tick tick' : nat -> Z) (u v k : Z)
    (w : World) (r : Row) (user_u user_v : User) :
  k <> 0 ->
  applications w !! k = Some r ->
  users w !! u = Some user_u -> is_active_operator user_u = true ->
  users w !! v = Some user_v -> is_active_operator user_v = true ->
  u <> v ->
  locked_by r = None \/ locked_by r = Some u ->
  exists w1 : World,
    dispatch py tick (Some u) k w = (proceed, w1)
    /\ (tick' 0%nat - tick 0%nat < operator_lock_cooldown ->
        dispatch py tick' (Some v) k w1
        = (permission_denied (conflict_prefix ++ full_name user_u)%string, w1))
    /\ (operator_lock_cooldown <= tick' 0%nat - tick 0%nat ->
        exists w2 : World,
          dispatch py tick' (Some v) k w1 = (proceed, w2)
          /\ w2 = locked_for v (tick' 1%nat) k r w
          /\ forall tick'' : nat -> Z,
               tick'' 0%nat - tick' 1%nat < operator_lock_cooldown ->
               dispatch py tick'' (Some u) k w2
               = (permission_denied (conflict_prefix ++ full_name user_v)%string,
                  w2))
    /\ dispatch py tick' (Some u) k w1
       = (proceed, locked_for u (tick' 0%nat) k r w).
Proof.
  intros Hk Hrow Hu Hau Hv Hav Hne Hfree.
  exists (locked_for u (tick 0%nat) k r w).
  split; [apply (dispatch_free py tick u k w r user_u); assumption|].
  pose proof (locked_for_lookup u (tick 0%nat) k r w) as Hrow1.
  split; [|split].
  - intros Hlt.
    rewrite (dispatch_held py tick' v u (tick 0%nat) k _ _ user_v user_u
               Hk Hrow1 Hv Hav eq_refl Hne eq_refl Hu).
    destruct (Z.ltb_spec (tick' 0%nat - tick 0%nat) operator_lock_cooldown);
      [reflexivity | lia].
  - intros Hge. eexists. split; [|split].
    + rewrite (dispatch_held py tick' v u (tick 0%nat) k _ _ user_v user_u
                 Hk Hrow1 Hv Hav eq_refl Hne eq_refl Hu).
      destruct (Z.ltb_spec (tick' 0%nat - tick 0%nat) operator_lock_cooldown);
        [lia | reflexivity].
    + apply locked_for_again.
    + intros tick'' Hlt. rewrite locked_for_again.
      rewrite (dispatch_held py tick'' u v (tick' 1%nat) k _ _ user_u user_v
                 Hk (locked_for_lookup v (tick' 1%nat) k r w) Hu Hau eq_refl
                 (not_eq_sym Hne) eq_refl Hv).
      destruct (Z.ltb_spec (tick'' 0%nat - tick' 1%nat) operator_lock_cooldown);
        [reflexivity | lia].
  - rewrite (dispatch_free py tick' u k _ _ user_u Hk Hrow1 Hu Hau
               (or_intror eq_refl)).
    rewrite locked_for_again. reflexivity.
Qed.

Lemma two_operators_witness :
  exists w1 : World,
    dispatch Samples.py (Samples.clock 0) (Some 1) 5 Samples.locked_world
    = (proceed, w1)
    /\ (Samples.clock 1 0%nat - Samples.clock 0 0%nat < operator_lock_cooldown ->
        dispatch Samples.py (Samples.clock 1) (Some 2) 5 w1
        = (permission_denied (conflict_prefix ++ "Ivanov Ivan")%string, w1))
    /\ (operator_lock_cooldown <= Samples.clock 1 0%nat - Samples.clock 0 0%nat ->
        exists w2 : World,
          dispatch Samples.py (Samples.clock 1) (Some 2) 5 w1 = (proceed, w2)
          /\ w2 = locked_for 2 (Samples.clock 1 1%nat) 5 Samples.held
                    Samples.locked_world
          /\ forall tick'' : nat -> Z,
               tick'' 0%nat - Samples.clock 1 1%nat < operator_lock_cooldown ->
               dispatch Samples.py tick'' (Some 1) 5 w2
               = (permission_denied (conflict_prefix ++ "Petrov Petr")%string,
                  w2))
    /\ dispatch Samples.py (Samples.clock 1) (Some 1) 5 w1
       = (proceed,
          locked_for 1 (Samples.clock 1 0%nat) 5 Samples.held Samples.locked_world).
Proof.
  apply (two_operators Samples.py (Samples.clock 0) (Samples.clock 1) 1 2 5
           Samples.locked_world Samples.held
           {| full_name := "Ivanov Ivan"; is_active_operator := true |}
           {| full_name := "Petrov Petr"; is_active_operator := true |}).
  - lia.
  - reflexivity.
  - reflexivity.
  - reflexivity.
  - reflexivity.
  - reflexivity.
  - lia.
  - right. reflexivity.
Defined.

(** Releasing writes the two lock columns of the stored row as NULL, whatever
    the instance holds in its other columns. *)
Lemma release_shape (py : PyLib) (now k : Z) (self : Instance) (w : World)
    (r : Row) :
  pk self = Some k ->
  k <> 0 ->
  applications w !! k = Some r ->
  exists (self' : Instance) (w' : World),
    release_lock py now self w = ret (self', w')
    /\ applications w' = <[k := set_lock None None r]> (applications w)
    /\ locked_by (row self') = None
    /\ locked_at (row self') = None.
Proof.
  intros Hpk Hk Hrow. unfold release_lock, save.
  assert (Hp : pk_truthy (with_row (set_lock None None (row self)) self) = Some k)
    by (apply SaveMoreFacts.pk_truthy_some; [exact Hpk | exact Hk]).
  rewrite Hp. cbn [mbind result_bind fst snd]. rewrite Hrow.
  cbn [mbind result_bind fst snd]. unfold model_save, save_table.
  cbn [lock_columns pk with_row]. rewrite Hpk.
  rewrite (proj1 (ReceiverFacts.status_changed_frame _ _)), Hrow.
  cbn [mbind result_bind fst snd].
  eexists _, _. split; [reflexivity|]. split; [|split; reflexivity].
  rewrite (proj1 (ReceiverFacts.data_status_changed_frame _ _)),
    AggregateFacts.handle_application_time_applications.
  reflexivity.
Qed.

(** X25. Entering and leaving. An operator enters the processing of an
    application, and [release_lock] is then called on any instance of that
    application (the view loads a new one for the POST): the first step
    stores the operator and the stamp, the second stores NULL in both lock
    columns; no other column and no other row is written. When the
    application was free before, the table of applications is back to what
    it was. *)
Theorem enter_then_release (py : PyLib) (tick : nat -> Z) (now u k : Z)
    (self : Instance) (w : World) (r : Row) (user : User) :
  k <> 0 ->
  applications w !! k = Some r ->
  users w !! u = Some user ->
  is_active_operator user = true ->
  locked_by r = None \/ locked_by r = Some u ->
  pk self = Some k ->
  exists (w1 : World) (self' : Instance) (w2 : World),
    dispatch py tick (Some u) k w = (proceed, w1)
    /\ applications w1 = <[k := set_lock (Some u) (Some (tick 0%nat)) r]> (applications w)
    /\ release_lock py now self w1 = ret (self', w2)
    /\ applications w2 = <[k := set_lock None None r]> (applications w)
    /\ (locked_by r = None -> locked_at r = None ->
        applications w2 = applications w).
Proof.
  intros Hk Hrow Hu Hau Hfree Hpk.
  destruct (release_shape py now k self (locked_for u (tick 0%nat) k r w)
              _ Hpk Hk (locked_for_lookup u (tick 0%nat) k r w))
    as (self' & w2 & Hrel & Happs & _).
  exists (locked_for u (tick 0%nat) k r w), self', w2.
  split; [apply (dispatch_free py tick u k w r user); assumption|].
  split; [reflexivity|]. split; [exact Hrel|].
  assert (E : applications w2 = <[k := set_lock None None r]> (applications w)).
  { rewrite Happs. unfold locked_for. cbn. rewrite insert_insert_eq. reflexivity. }
  split; [exact E|].
  intros Hby Hat. rewrite E.
  assert (Er : set_lock None None r = r)
    by (destruct r; cbn in *; subst; reflexivity).
  rewrite Er. apply insert_id. exact Hrow.
Qed.

Lemma enter_then_release_witness :
  exists (w1 : World) (self' : Instance) (w2 : World),
    dispatch Samples.py (Samples.clock 3) (Some 1) 5 Samples.locked_world
    = (proceed, w1)
    /\ applications w1
       = <[5 := set_lock (Some 1) (Some (Samples.clock 3 0%nat)) Samples.held]>
           (applications Samples.locked_world)
    /\ release_lock Samples.py 7 (from_db 5 Samples.blank) w1 = ret (self', w2)
    /\ applications w2
       = <[5 := set_lock None None Samples.held]> (applications Samples.locked_world)
    /\ (locked_by Samples.held = None -> locked_at Samples.held = None ->
        applications w2 = applications Samples.locked_world).
Proof.
  apply (enter_then_release Samples.py (Samples.clock 3) 7 1 5
           (from_db 5 Samples.blank) Samples.locked_world Samples.held
           {| full_name := "Ivanov Ivan"; is_active_operator := true |}).
  - lia.
  - reflexivity.
  - reflexivity.
  - reflexivity.
  - right. reflexivity.
  - reflexivity.
Defined.

(** A row the sweep does not select is left as it is. *)
Lemma sweep_lookup (now k : Z) (w : World) :
  applications (snd (release_expired_locks now w)) !! k
  = (fun r => if lock_expired (now - Datetime.of_hours 12) r
              then set_lock None None r else r) <$> applications w !! k.
Proof. unfold release_expired_locks. cbn. apply lookup_fmap. Qed.

Lemma released_not_expired (e : Z) (r : Row) :
  lock_expired e (if lock_expired e r then set_lock None None r else r) = false.
Proof. destruct (lock_expired e r) eqn:E; [reflexivity | exact E]. Qed.

Lemma with_applications_id (w : World) : with_applications (applications w) w = w.
Proof. destruct w. reflexivity. Qed.

Lemma sweep_nothing (now : Z) (w : World) :
  (forall k r, applications w !! k = Some r ->
               lock_expired (now - Datetime.of_hours 12) r = false) ->
  release_expired_locks now w = (0%nat, w).
Proof.
  intros H. unfold release_expired_locks. f_equal.
  - rewrite NotificationFacts.filter_none; [reflexivity|].
    intros [k r] Hin. apply list_elem_of_In, elem_of_map_to_list in Hin.
    exact (H k r Hin).
  - transitivity (with_applications (applications w) w);
      [|apply with_applications_id].
    f_equal. apply map_eq. intros k. rewrite lookup_fmap.
    destruct (applications w !! k) as [r|] eqn:E; [|reflexivity].
    cbn. rewrite (H k r E). reflexivity.
Qed.

(** X26. The sweep of expired locks at time [now]. A row is released exactly
    when it has a holder and a stamp earlier than [now] minus twelve hours:
    its two lock columns become NULL, every other row is as before, and so
    are the outbox and the quota groups (no receiver runs). A lock without
    a stamp is never released. After the sweep no lock older than twelve
    hours is left, so that a second sweep at the same time releases
    nothing. *)
Theorem sweep_releases_old_locks (now : Z) (w : World) :
  (forall (k : Z) (r : Row),
      applications w !! k = Some r ->
      applications (snd (release_expired_locks now w)) !! k
      = Some (if lock_expired (now - Datetime.of_hours 12) r
              then set_lock None None r else r))
  /\ (forall k : Z,
        applications w !! k = None ->
        applications (snd (release_expired_locks now w)) !! k = None)
  /\ (forall (k : Z) (r : Row),
        applications w !! k = Some r -> locked_at r = None ->
        applications (snd (release_expired_locks now w)) !! k = Some r)
  /\ (forall (k holder locked : Z) (r' : Row),
        applications (snd (release_expired_locks now w)) !! k = Some r' ->
        locked_by r' = Some holder -> locked_at r' = Some locked ->
        now - Datetime.of_hours 12 <= locked)
  /\ outbox (snd (release_expired_locks now w)) = outbox w
  /\ quota_groups (snd (release_expired_locks now w)) = quota_groups w
  /\ release_expired_locks now (snd (release_expired_locks now w))
     = (0%nat, snd (release_expired_locks now w)).
Proof.
  assert (Hclean : forall k r',
             applications (snd (release_expired_locks now w)) !! k = Some r' ->
             lock_expired (now - Datetime.of_hours 12) r' = false).
  { intros k r' H. rewrite sweep_lookup in H.
    destruct (applications w !! k) as [r|]; [|discriminate H].
    cbn in H. injection H as <-. apply released_not_expired. }
  split; [|split; [|split; [|split; [|split; [|split]]]]].
  - intros k r H. rewrite sweep_lookup, H. reflexivity.
  - intros k H. rewrite sweep_lookup, H. reflexivity.
  - intros k r H Hat. rewrite sweep_lookup, H. cbn.
    unfold lock_expired. rewrite Hat. destruct (locked_by r); reflexivity.
  - intros k holder locked r' H Hby Hat. specialize (Hclean k r' H).
    unfold lock_expired in Hclean. rewrite Hby, Hat in Hclean.
    apply Z.ltb_ge. exact Hclean.
  - reflexivity.
  - reflexivity.
  - apply sweep_nothing. exact Hclean.
Qed.

(** X27. The sweep and the cooldown. A lock that the sweep at time [now]
    would release excludes nobody any more: every active operator who
    requests the application at [now] or later is let in, the holder with
    the first reading of the clock as stamp, anybody else with the
    second. *)
Theorem expired_lock_excludes_nobody (py : PyLib) (tick : nat -> Z) (now v k : Z)
    (w : World) (r : Row) (user : User) :
  k <> 0 ->
  applications w !! k = Some r ->
  lock_expired (now - Datetime.of_hours 12) r = true ->
  users w !! v = Some user ->
  is_active_operator user = true ->
  now <= tick 0%nat ->
  dispatch py tick (Some v) k w
  = (proceed,
     locked_for v (if bool_decide (locked_by r = Some v)
                   then tick 0%nat else tick 1%nat) k r w).
Proof.
  intros Hk Hrow Hexp Hv Hav Hnow. unfold lock_expired in Hexp.
  destruct (locked_by r) as [holder|] eqn:Hby; [|discriminate Hexp].
  destruct (locked_at r) as [locked|] eqn:Hat; [|discriminate Hexp].
  apply Z.ltb_lt in Hexp.
  unfold dispatch. rewrite Hrow, Hv, Hav, Hby. cbn [negb].
  destruct (Z.eqb_spec holder v) as [->|Hne]; cbn [negb].
  - rewrite bool_decide_true by reflexivity.
    apply LockFacts.acquire_spec; assumption.
  - rewrite bool_decide_false by congruence. rewrite Hat.
    destruct (Z.ltb_spec (tick 0%nat - locked) operator_lock_cooldown) as [Hlt|_].
    + unfold operator_lock_cooldown, Datetime.of_hours, us_per_hour,
        us_per_second in *.
      lia.
    + apply LockFacts.acquire_spec; assumption.
Qed.

Lemma expired_lock_excludes_nobody_witness :
  dispatch Samples.py (Samples.clock 13) (Some 2) 5 Samples.locked_world
  = (proceed,
     locked_for 2 (if bool_decide (locked_by Samples.held = Some 2)
                   then Samples.clock 13 0%nat else Samples.clock 13 1%nat)
       5 Samples.held Samples.locked_world).
Proof.
  apply (expired_lock_excludes_nobody Samples.py (Samples.clock 13)
           (Datetime.of_hours 13) 2 5 Samples.locked_world Samples.held
           {| full_name := "Petrov Petr"; is_active_operator := true |}).
  - lia.
  - reflexivity.
  - reflexivity.
  - reflexivity.
  - reflexivity.
  - unfold Samples.clock. lia.
Defined.

End LockMoreFacts.


(** ** The approval gate *)

Module GateFacts.
Import Notification.

(** A relation has a response in a table when some row of the table points
    to it. *)
Lemma has_response_spec (rel : Z) (t : gmap Z Response) :
  has_response rel t = true
  <-> exists (n : Z) (resp : Response),
        t !! n = Some resp /\ notification_relations resp = Some rel.
Proof.
  unfold has_response. rewrite existsb_exists. split.
  - intros [[n resp] [Hin Hr]].
    apply list_elem_of_In, elem_of_map_to_list in Hin. cbn [snd] in Hr.
    exists n, resp. split; [exact Hin|].
    destruct (notification_relations resp) as [r|]; [|discriminate Hr].
    apply Z.eqb_eq in Hr. congruence.
  - intros (n & resp & Hin & Hr). exists (n, resp). split.
    + apply list_elem_of_In, elem_of_map_to_list. exact Hin.
    + cbn [snd]. rewrite Hr. apply Z.eqb_refl.
Qed.

Lemma active_relations_spec (issue_pk i : Z) (r : NotificationRelations)
    (w : World) :
  In (i, r) (active_relations issue_pk w)
  <-> relations w !! i = Some r /\ issue r = issue_pk /\ is_active r = true.
Proof.
  unfold active_relations. rewrite filter_In, <- list_elem_of_In, elem_of_map_to_list.
  cbn [snd]. rewrite andb_true_iff, Z.eqb_eq. tauto.
Qed.

(** X28. The approval gate. The action of an issue is allowed exactly when
    every active relation of the issue passes: an '&' relation has no
    rejected and no pending response, an '|' relation has at least one
    accepted response (a relation with any other logic passes). When the
    gate is closed [try_action] returns False without looking up or calling
    a handler and without a log line. *)
Theorem action_allowed_iff (attrs : attributes) (issue_pk : Z)
    (self : NotificationIssue) (w : World) :
  (is_action_allowed issue_pk w = true
   <-> forall (i : Z) (r : NotificationRelations),
         relations w !! i = Some r -> issue r = issue_pk -> is_active r = true ->
         (logic_dependence r = "&" ->
          forall (n : Z) (resp : Response),
            rejected_notifications w !! n = Some resp
            \/ pending_notifications w !! n = Some resp ->
            notification_relations resp <> Some i)
         /\ (logic_dependence r = "|" ->
             exists (n : Z) (resp : Response),
               accepted_notifications w !! n = Some resp
               /\ notification_relations resp = Some i))
  /\ (is_action_allowed issue_pk w = false ->
      try_action attrs issue_pk self w = (false, [])).
Proof.
  split.
  - unfold is_action_allowed. rewrite forallb_forall. split.
    + intros H i r Hr Hi Ha.
      specialize (H (i, r) (proj2 (active_relations_spec issue_pk i r w)
                              (conj Hr (conj Hi Ha)))).
      unfold gate in H. cbn [fst snd] in H. split.
      * intros E n resp Hresp. rewrite E in H. cbn in H.
        apply negb_true_iff, orb_false_iff in H as [Hrej Hpend].
        intros Hlink. destruct Hresp as [Hn | Hn].
        -- assert (Ht : has_response i (rejected_notifications w) = true)
             by (apply has_response_spec; exists n, resp; split; assumption).
           congruence.
        -- assert (Ht : has_response i (pending_notifications w) = true)
             by (apply has_response_spec; exists n, resp; split; assumption).
           congruence.
      * intros E. rewrite E in H. cbn in H. apply has_response_spec. exact H.
    + intros H [i r] Hin.
      apply active_relations_spec in Hin as (Hr & Hi & Ha).
      destruct (H i r Hr Hi Ha) as [Hand Hor].
      unfold gate. cbn [fst snd].
      destruct (String.eqb_spec (logic_dependence r) "&") as [E|_].
      * apply negb_true_iff, orb_false_iff. split.
        -- destruct (has_response i (rejected_notifications w)) eqn:Ht;
             [|reflexivity].
           apply has_response_spec in Ht as (n & resp & Hn & Hlink).
           exfalso. exact (Hand E n resp (or_introl Hn) Hlink).
        -- destruct (has_response i (pending_notifications w)) eqn:Ht;
             [|reflexivity].
           apply has_response_spec in Ht as (n & resp & Hn & Hlink).
           exfalso. exact (Hand E n resp (or_intror Hn) Hlink).
      * destruct (String.eqb_spec (logic_dependence r) "|") as [E|_];
          [|reflexivity].
        apply has_response_spec. exact (Hor E).
  - intros H. unfold try_action. rewrite H. reflexivity.
Qed.

End GateFacts.

(** ** The forbidden characters of a sample code *)

Module ValidatorFacts.
Import Validators.

Lemma list_ascii_app (a b : string) :
  list_ascii_of_string (a ++ b)%string
  = (list_ascii_of_string a ++ list_ascii_of_string b)%list.
Proof. induction a as [|c a IH]; [reflexivity|]. simpl. f_equal. exact IH. Qed.

Lemma contains_false (char : ascii) (value : string) :
  contains char value = false
  <-> forall c, In c (list_ascii_of_string value) -> c <> char.
Proof.
  unfold contains. induction (list_ascii_of_string value) as [|x l IH]; cbn.
  - split; [intros _ c [] | reflexivity].
  - rewrite orb_false_iff, IH. split.
    + intros [Hx Hl] c [<- | Hc].
      * intros ->. rewrite Ascii.eqb_refl in Hx. discriminate Hx.
      * exact (Hl c Hc).
    + intros H. split.
      * destruct (Ascii.eqb_spec char x) as [->|]; [|reflexivity].
        exfalso. exact (H x (or_introl eq_refl) eq_refl).
      * intros c Hc. exact (H c (or_intror Hc)).
Qed.

Lemma validate_valid (value : string) :
  validate_forbidden_chars value = valid
  <-> contains "\" value = false /\ contains "/" value = false
      /\ contains "|" value = false.
Proof.
  unfold validate_forbidden_chars. cbn [forbidden_chars list_ascii_of_string existsb].
  destruct (contains "\" value), (contains "/" value), (contains "|" value);
    cbn; split; try discriminate; try tauto;
    intros (H1 & H2 & H3); discriminate.
Qed.

(** X29. The validator of the sample code accepts a string exactly when none
    of its characters is a backslash, a slash or a vertical bar; a refusal
    always carries the three characters as its parameter; and a
    concatenation is accepted exactly when both parts are, so that a code
    put together from accepted parts needs no second check. *)
Theorem forbidden_chars_spec (value : string) :
  (validate_forbidden_chars value = valid
   <-> forall c, In c (list_ascii_of_string value) ->
                 c <> "\"%char /\ c <> "/"%char /\ c <> "|"%char)
  /\ (validate_forbidden_chars value <> valid ->
      validate_forbidden_chars value = ValidationError "\/|")
  /\ (forall a b : string,
        validate_forbidden_chars (a ++ b)%string = valid
        <-> validate_forbidden_chars a = valid
            /\ validate_forbidden_chars b = valid).
Proof.
  split; [|split].
  - rewrite validate_valid, !contains_false. split.
    + intros (H1 & H2 & H3) c Hc. auto.
    + intros H. repeat split; intros c Hc; apply (H c Hc).
  - unfold validate_forbidden_chars. destruct (existsb _ _); [reflexivity|].
    intros H. exfalso. exact (H eq_refl).
  - intros a b. rewrite !validate_valid, !contains_false, list_ascii_app.
    split.
    + intros (H1 & H2 & H3).
      repeat split; intros c Hc;
        first [apply H1 | apply H2 | apply H3]; apply in_or_app; tauto.
    + intros ((H1 & H2 & H3) & (H4 & H5 & H6)).
      repeat split; intros c Hc; apply in_app_or in Hc as [Hc|Hc]; auto.
Qed.

End ValidatorFacts.
